(** * TimeSkill: a shallow embedding of the Mycroft time skill

    The skill answers "what time is it (in <city>)" and "what time will it
    be in <duration> (in <city>)".  This file embeds [TimeSkill] of
    [__init__.py] together with the parts of the Python runtime it leans
    on ([datetime] arithmetic, [str.split], truthiness), and states the
    properties of the response protocol over that embedding. *)

From Stdlib Require Import ZArith List String Ascii Bool Lia.
From stdpp Require Import base option strings gmap.

Set Default Proof Using "Type".

(** ** Python exceptions that occur on the modelled paths *)

Inductive exn : Type :=
  | LocationNotFoundError
  | ValueError (msg : string)
  | OverflowError (msg : string)
  | KeyError (key : string)
  | OtherException (name : string).

Inductive result (A : Type) : Type :=
  | Ok (a : A)
  | Raise (e : exn).
Arguments Ok {A} a.
Arguments Raise {A} e.

(** ** [datetime] and [timedelta] of the Python standard library

    [_cache_current_time_tts] builds [datetime(...) + timedelta(minutes=1)];
    the functions below follow Lib/_pydatetime.py. *)

Module PyDatetime.
Local Open Scope Z_scope.

Definition MINYEAR : Z := 1.
Definition MAXYEAR : Z := 9999.
Definition MAXORDINAL : Z := 3652059.

Definition DAYS_IN_MONTH : list Z :=
  [-1; 31; 28; 31; 30; 31; 30; 31; 31; 30; 31; 30; 31].
Definition DAYS_BEFORE_MONTH : list Z :=
  [-1; 0; 31; 59; 90; 120; 151; 181; 212; 243; 273; 304; 334].

(** Table access [t[i]]; the callers only index with a month. *)
Definition tbl (t : list Z) (i : Z) : Z := nth (Z.to_nat i) t (-1).

(** Python's [a and b] on a bool and its use as an integer. *)
Definition b2z (b : bool) : Z := if b then 1 else 0.

Definition is_leap (year : Z) : bool :=
  (year mod 4 =? 0) && (negb (year mod 100 =? 0) || (year mod 400 =? 0)).

Definition days_before_year (year : Z) : Z :=
  let y := year - 1 in
  y * 365 + y / 4 - y / 100 + y / 400.

Definition days_in_month (year month : Z) : Z :=
  if (month =? 2) && is_leap year then 29 else tbl DAYS_IN_MONTH month.

Definition days_before_month (year month : Z) : Z :=
  tbl DAYS_BEFORE_MONTH month + b2z ((2 <? month) && is_leap year).

Definition ymd2ord (year month day : Z) : Z :=
  days_before_year year + days_before_month year month + day.

Definition DI400Y : Z := Eval cbv in days_before_year 401.
Definition DI100Y : Z := Eval cbv in days_before_year 101.
Definition DI4Y : Z := Eval cbv in days_before_year 5.

Definition ord2ymd (n : Z) : Z * Z * Z :=
  let n := n - 1 in
  let n400 := n / DI400Y in
  let n := n mod DI400Y in
  let year := n400 * 400 + 1 in
  let n100 := n / DI100Y in
  let n := n mod DI100Y in
  let n4 := n / DI4Y in
  let n := n mod DI4Y in
  let n1 := n / 365 in
  let n := n mod 365 in
  let year := year + n100 * 100 + n4 * 4 + n1 in
  if (n1 =? 4) || (n100 =? 4) then (year - 1, 12, 31)
  else
    let leapyear := (n1 =? 3) && (negb (n4 =? 24) || (n100 =? 3)) in
    let month := Z.shiftr (n + 50) 5 in
    let preceding :=
      tbl DAYS_BEFORE_MONTH month + b2z ((2 <? month) && leapyear) in
    if n <? preceding then
      let month := month - 1 in
      let preceding :=
        preceding - (tbl DAYS_IN_MONTH month + b2z ((month =? 2) && leapyear)) in
      (year, month, n - preceding + 1)
    else (year, month, n - preceding + 1).

(** A [datetime] object; [tzinfo] is the zone identifier of an aware
    value and [None] for a naive one. *)
Record datetime : Type := mk_datetime {
  year : Z;
  month : Z;
  day : Z;
  hour : Z;
  minute : Z;
  second : Z;
  microsecond : Z;
  tzinfo : option string
}.

(** A normalised [timedelta]. *)
Record timedelta : Type := mk_timedelta {
  days : Z;
  seconds : Z;
  microseconds : Z
}.

(** [_check_date_fields] and [_check_time_fields]. *)
Definition check_date_fields (y m d : Z) : bool :=
  (MINYEAR <=? y) && (y <=? MAXYEAR) &&
  (1 <=? m) && (m <=? 12) &&
  (1 <=? d) && (d <=? days_in_month y m).

Definition check_time_fields (h mi s us : Z) : bool :=
  (0 <=? h) && (h <=? 23) && (0 <=? mi) && (mi <=? 59) &&
  (0 <=? s) && (s <=? 59) && (0 <=? us) && (us <=? 999999).

(** The values the [datetime] constructor accepts. *)
Definition valid (dt : datetime) : bool :=
  check_date_fields (year dt) (month dt) (day dt) &&
  check_time_fields (hour dt) (minute dt) (second dt) (microsecond dt).

(** [datetime(year, month, day, hour=0, minute=0, second=0, microsecond=0,
    tzinfo=None)]: [ValueError] on a field out of range. *)
Definition new_datetime (y m d h mi s us : Z) (tz : option string)
  : result datetime :=
  if negb (check_date_fields y m d) then
    Raise (ValueError "date field out of range")
  else if negb (check_time_fields h mi s us) then
    Raise (ValueError "time field out of range")
  else Ok (mk_datetime y m d h mi s us tz).

(** [timedelta(days, seconds, microseconds, milliseconds, minutes, hours,
    weeks)] on integers: carry microseconds into seconds and seconds into
    days with floor division, refuse more than 999999999 days. *)
Definition new_timedelta (d s us ms mi h w : Z) : result timedelta :=
  let d := d + w * 7 in
  let s := s + mi * 60 + h * 3600 in
  let us := us + ms * 1000 in
  let s := s + us / 1000000 in
  let us := us mod 1000000 in
  let d := d + s / 86400 in
  let s := s mod 86400 in
  if 999999999 <? Z.abs d then
    Raise (OverflowError "timedelta # of days is too large")
  else Ok (mk_timedelta d s us).

(** [timedelta.__add__]. *)
Definition timedelta_add (a b : timedelta) : result timedelta :=
  new_timedelta (days a + days b) (seconds a + seconds b)
    (microseconds a + microseconds b) 0 0 0 0.

Definition toordinal (dt : datetime) : Z :=
  ymd2ord (year dt) (month dt) (day dt).

(** [datetime.__add__(self, other)] for a [timedelta]. *)
Definition datetime_add (self : datetime) (other : timedelta)
  : result datetime :=
  match new_timedelta (toordinal self) (second self) (microsecond self) 0
          (minute self) (hour self) 0 with
  | Raise e => Raise e
  | Ok delta =>
    match timedelta_add delta other with
    | Raise e => Raise e
    | Ok delta =>
      let hour := seconds delta / 3600 in
      let rem := seconds delta mod 3600 in
      let minute := rem / 60 in
      let second := rem mod 60 in
      if (0 <? days delta) && (days delta <=? MAXORDINAL) then
        let '(y, m, d) := ord2ymd (days delta) in
        Ok (mk_datetime y m d hour minute second (microseconds delta)
              (tzinfo self))
      else Raise (OverflowError "result out of range")
    end
  end.

(** Position of a wall-clock reading on the time line, in microseconds
    since the start of ordinal day 0. *)
Definition to_microseconds (dt : datetime) : Z :=
  ((toordinal dt * 86400 + hour dt * 3600 + minute dt * 60 + second dt)
   * 1000000) + microsecond dt.

Definition timedelta_microseconds (td : timedelta) : Z :=
  (days td * 86400 + seconds td) * 1000000 + microseconds td.

Definition zero_duration : timedelta := mk_timedelta 0 0 0.

(** [timedelta.__bool__]: only the zero duration is falsy. *)
Definition timedelta_bool (td : timedelta) : bool :=
  negb ((days td =? 0) && (seconds td =? 0) && (microseconds td =? 0)).

End PyDatetime.

(** ** Python strings *)

Module PyStr.

(** [s.split(sep)] for a one-character separator: the pieces between the
    separators, empty pieces kept, so the result has one more element
    than [s] has separators. *)
Fixpoint split (sep : ascii) (s : string) : list string :=
  match s with
  | EmptyString => [EmptyString]
  | String c s' =>
    if Ascii.eqb c sep then EmptyString :: split sep s'
    else
      match split sep s' with
      | w :: ws => String c w :: ws
      | [] => [String c EmptyString]
      end
  end.

(** [s.count(sep)]. *)
Fixpoint count (sep : ascii) (s : string) : nat :=
  match s with
  | EmptyString => O
  | String c s' => (if Ascii.eqb c sep then 1 else 0) + count sep s'
  end.

(** [sep.join(ws)]. *)
Fixpoint join (sep : string) (ws : list string) : string :=
  match ws with
  | [] => EmptyString
  | [w] => w
  | w :: ws' => w ++ sep ++ join sep ws'
  end.

(** Truthiness of a string: [bool(s)]. *)
Definition truthy (s : string) : bool :=
  match s with EmptyString => false | String _ _ => true end.

(** Truthiness of [Optional[str]]: [None] and [""] are falsy. *)
Definition truthy_opt (o : option string) : bool :=
  match o with None => false | Some s => truthy s end.

(** [s.split()]: the words of [s], runs of blanks skipped. *)
Definition words (s : string) : list string :=
  List.filter truthy (split " " s).

Definition unwords (ws : list string) : string := join " " ws.

(** [s.strip()] for blanks: those at both ends are dropped. *)
Fixpoint lstrip (s : string) : string :=
  match s with
  | EmptyString => EmptyString
  | String c s' => if Ascii.eqb c " " then lstrip s' else s
  end.

Fixpoint rstrip (s : string) : string :=
  match s with
  | EmptyString => EmptyString
  | String c s' =>
    match rstrip s' with
    | EmptyString => if Ascii.eqb c " " then EmptyString else String c EmptyString
    | kept => String c kept
    end
  end.

Definition strip (s : string) : string := lstrip (rstrip s).

End PyStr.

(** ** The response-construction core

    [__init__.py] imports [Response], [LocationNotFoundError],
    [get_display_time] and [FaceplateRenderer] from the package's [skill]
    module; what [TimeSkill] uses of them is described here. *)

Export PyDatetime.

Abbreviation Config := (gmap string (gmap string string)).
Abbreviation DialogData := (gmap string (option string)).

(** Resolved place data: display fields, coordinates (in millionths of a
    degree) and the zone identifier. *)
Record Geolocation : Type := mk_geolocation {
  city : string;
  region : option string;
  country : option string;
  latitude : Z;
  longitude : Z;
  timezone : string
}.

(** The attributes of a [Response] object that [TimeSkill] reads. *)
Record Response : Type := mk_response {
  date_time : option datetime;
  requested_location : option string;
  geolocation : option Geolocation;
  dialog_name : option string;
  dialog_data : option DialogData
}.

(** The collaborators of the skill: the capabilities the core calls into
    and the readings of the world a handler takes while it runs. *)
Class World : Type := {
  (** Duration Extractor: [(remainder, duration)], zero when no offset. *)
  extract_duration : string -> string * timedelta;
  (** The words that introduce a place in the locale's location.rx. *)
  location_rx : list string;
  (** Geolocation capability: [None] is "no match or lookup failed". *)
  geolocate : string -> option Geolocation;
  (** Time Computer's [now]: local without a zone, else in the zone. *)
  now : option string -> datetime;
  (** Locale formatting capability: the speakable time. *)
  nice_time : datetime -> string;
  (** Display Formatter, [get_display_time(date_time, config)]. *)
  get_display_time : option datetime -> Config -> string;
  (** The reading of [datetime.now()]. *)
  datetime_now : datetime;
  (** The alarm skill's answer on the bus: no answer, or the payload's
      [active_alarms] entry when it has one. *)
  has_alarm_response : option (option Z);
  (** What the speech pre-cache entry point raises, if anything. *)
  cache_dialog_error : option exn
}.

Module ResponseModel.
Import PyStr.

Section Builder.
Context {W : World}.

(** Modelled from the spec: the Location Extractor (skill/response.py
    with regex/<lang>/location.rx), whose code is not at hand.  The
    pattern matches "in/at <place>": the first word among the locale's
    place prepositions that has text after it, capturing that text. *)
Fixpoint match_location (ws : list string) : option (list string) :=
  match ws with
  | [] => None
  | w :: rest =>
    if bool_decide (w ∈ location_rx) && negb (bool_decide (rest = []))
    then Some rest
    else match_location rest
  end.

(** Modelled from the spec: the captured place text, trimmed, or absent. *)
Definition extract_location (utterance : string) : option string :=
  unwords <$> match_location (words utterance).

(** Modelled from the spec: the Geolocation Resolver, which fails with
    [LocationNotFoundError] when the lookup has no match or errors. *)
Definition resolve (location_query : string) : result Geolocation :=
  match geolocate location_query with
  | Some g => Ok g
  | None => Raise LocationNotFoundError
  end.

(** Modelled from the spec: the Time Computer's [compute], the base plus
    the duration in calendar arithmetic on the wall clock, the zone kept. *)
Definition compute (base : datetime) (duration : timedelta)
  : result datetime :=
  datetime_add base duration.

(** Modelled from the spec: [Response.get_display_location], the display
    name from the fields the resolver returned. *)
Definition display_location (g : Geolocation) : string :=
  join ", " (city g :: option_list (region g) ++ option_list (country g)).

(** [TimeSkill] calls it on a response with a geolocation only. *)
Definition get_display_location (r : Response) : string :=
  from_option display_location "" (geolocation r).

(** [Response(config, location_regex_path)]: nothing computed yet. *)
Definition new_response : Response := mk_response None None None None None.

Definition set_requested_location (q : option string) (r : Response)
  : Response :=
  mk_response (date_time r) q (geolocation r) (dialog_name r) (dialog_data r).

Definition set_result (g : option Geolocation) (dt : datetime)
    (name : string) (data : DialogData) (r : Response) : Response :=
  mk_response (Some dt) (requested_location r) g (Some name) (Some data).

(** The steps both entry protocols share once the utterance to search for
    a place is known, in the order the spec lists them: record the
    requested text, then resolve it (the text stays on the object when
    resolution raises), take [now] there or locally, add the duration if
    the entry has one, and choose the template.  An entry with a duration
    that turns out to be zero stores neither date-time nor template: the
    object keeps the requested text only. *)
Definition locate_and_compute (text : string) (duration : option timedelta)
    (plain with_location : string) (r : Response) : result () * Response :=
  let r := set_requested_location (extract_location text) r in
  let answer g dt :=
    match g with
    | Some geo =>
      set_result g dt with_location
        {[ "time" := Some (nice_time dt);
           "location" := Some (display_location geo) ]} r
    | None => set_result g dt plain {[ "time" := Some (nice_time dt) ]} r
    end in
  let finish g base :=
    match duration with
    | None => (Ok (), answer g base)
    | Some d =>
      match compute base d with
      | Raise e => (Raise e, r)
      | Ok dt => if timedelta_bool d then (Ok (), answer g dt) else (Ok (), r)
      end
    end in
  match requested_location r with
  | Some q =>
    match resolve q with
    | Raise e => (Raise e, r)
    | Ok geo => finish (Some geo) (now (Some (timezone geo)))
    end
  | None => finish None (now None)
  end.

(** Modelled from the spec: entry A, [build_current_time_response]. *)
Definition build_current_time_response (utterance : string) (r : Response)
  : result () * Response :=
  locate_and_compute utterance None "current-time" "current-time-location" r.

(** Modelled from the spec: entry B, [build_future_time_response].  The
    Duration Extractor runs first and the Location Extractor sees its
    remainder only; a place found there is resolved, which may raise,
    [now] is taken and the duration is added; after that a zero duration
    leaves [date_time] unset, which is not an error, and any other
    duration selects the template. *)
Definition build_future_time_response (utterance : string) (r : Response)
  : result () * Response :=
  let '(remainder, duration) := extract_duration utterance in
  locate_and_compute remainder (Some duration)
    "future-time" "future-time-location" r.

End Builder.
End ResponseModel.

(** ** The skill object and the calls it makes on the host *)

Definition MARK_I : string := "mycroft_mark_1".
Definition MARK_II : string := "mycroft_mark_2".
Definition TEN_SECONDS : Z := 10.

(** A bus message: [data] is a dict, kept in insertion order. *)
Record Message : Type := mk_message {
  data : list (string * string)
}.

(** Calls on the host platform, in the order they are made.  The flag of
    [RenderTime] is the Python value handed to [render_time]: [None],
    [True] or [False]. *)
Inductive Effect : Type :=
  | LogInfo (msg : string)
  | LogException (msg : string) (e : exn)
  | SpeakDialog (name : option string) (data : option DialogData)
      (cache_key : option string) (wait : bool)
  | CacheDialog (name : option string) (data : option DialogData)
      (cache_key : string)
  | DeactivateMouthEvents
  | ActivateMouthEvents
  | MouthReset
  | RenderTime (display_time : string) (alarm_is_set : option bool)
  | GetActive
  | RemoveActive
  | GuiShowPage (page_name : string) (override_idle : bool)
  | GuiRelease
  | BusWaitForResponse (msg_type : string)
  | Sleep (secs : Z).

(** The attributes of [TimeSkill] and of the host objects it holds. *)
Record TimeSkill : Type := mk_skill {
  config_core : Config;
  settings : gmap string bool;
  displayed_time : option string;
  _current_time_cache_key : string;
  gui : gmap string string;
  gui_connected : bool;
  (** [enclosure.display_manager.get_active()]: the skill that owns the
      faceplate, empty when it is idle. *)
  display_active : string;
  (** Pending one-shot events of the event scheduler, by name. *)
  scheduled : list (string * datetime);
  effects : list Effect
}.

(** Statements of a method: a state transformer over the skill that
    either returns or raises; what was done before a raise stays done. *)
Definition M (A : Type) : Type := TimeSkill -> result A * TimeSkill.

Definition ret {A} (a : A) : M A := fun s => (Ok a, s).

Definition bind {A B} (c : M A) (k : A -> M B) : M B :=
  fun s =>
    match c s with
    | (Ok a, s') => k a s'
    | (Raise e, s') => (Raise e, s')
    end.

Definition raise {A} (e : exn) : M A := fun s => (Raise e, s).

Definition gets {A} (f : TimeSkill -> A) : M A := fun s => (Ok (f s), s).

Definition modify (f : TimeSkill -> TimeSkill) : M () :=
  fun s => (Ok (), f s).

(** [try: body except Exception: handler]. *)
Definition try_except {A} (body : M A) (handler : exn -> M A) : M A :=
  fun s =>
    match body s with
    | (Ok a, s') => (Ok a, s')
    | (Raise e, s') => handler e s'
    end.

Declare Scope py_scope.
Delimit Scope py_scope with py.
Notation "x <- c ;; k" := (bind c (fun x => k))
  (at level 100, c at next level, right associativity) : py_scope.
Notation "c ;; k" := (bind c (fun _ => k))
  (at level 100, right associativity) : py_scope.
Open Scope py_scope.

Definition set_displayed_time (v : option string) (s : TimeSkill) : TimeSkill :=
  mk_skill (config_core s) (settings s) v (_current_time_cache_key s)
    (gui s) (gui_connected s) (display_active s) (scheduled s) (effects s).

Definition set_gui (g : gmap string string) (s : TimeSkill) : TimeSkill :=
  mk_skill (config_core s) (settings s) (displayed_time s)
    (_current_time_cache_key s) g (gui_connected s) (display_active s)
    (scheduled s) (effects s).

Definition set_display_active (a : string) (s : TimeSkill) : TimeSkill :=
  mk_skill (config_core s) (settings s) (displayed_time s)
    (_current_time_cache_key s) (gui s) (gui_connected s) a
    (scheduled s) (effects s).

Definition set_scheduled (l : list (string * datetime)) (s : TimeSkill)
  : TimeSkill :=
  mk_skill (config_core s) (settings s) (displayed_time s)
    (_current_time_cache_key s) (gui s) (gui_connected s) (display_active s)
    l (effects s).

Definition set_effects (l : list Effect) (s : TimeSkill) : TimeSkill :=
  mk_skill (config_core s) (settings s) (displayed_time s)
    (_current_time_cache_key s) (gui s) (gui_connected s) (display_active s)
    (scheduled s) l.

(** One call on the host, appended to the trace. *)
Definition emit (e : Effect) : M () :=
  modify (fun s => set_effects (effects s ++ [e]) s).

(** The pending events called [name]. *)
Definition pending (name : string) (s : TimeSkill) : list datetime :=
  snd <$> List.filter (fun ev => String.eqb (fst ev) name) (scheduled s).

(** [self.cancel_scheduled_event(name)]: the scheduler drops the events
    of that name. *)
Definition cancel_scheduled_event (name : string) : M () :=
  modify (fun s =>
    set_scheduled
      (List.filter (fun ev => negb (String.eqb (fst ev) name)) (scheduled s)) s).

(** [self.schedule_event(handler, when, name)]: one more pending event. *)
Definition schedule_event (when : datetime) (name : string) : M () :=
  modify (fun s => set_scheduled (scheduled s ++ [(name, when)]) s).

(** [self.gui[key] = value]. *)
Definition gui_set (key value : string) : M () :=
  modify (fun s => set_gui (<[key := value]> (gui s)) s).

(** Lift a value of the runtime that may be an exception. *)
Definition lift {A} (r : result A) : M A :=
  match r with
  | Ok a => ret a
  | Raise e => raise e
  end.

(** ** The methods of [TimeSkill] *)

Module Skill.
Import PyStr ResponseModel.

(** [d.get(key)] and [str(d.keys())] on a message's data. *)
Fixpoint dict_get (key : string) (d : list (string * string)) : option string :=
  match d with
  | [] => None
  | (k, v) :: d' => if String.eqb k key then Some v else dict_get key d'
  end.

Definition str_dict_keys (d : list (string * string)) : string :=
  ("dict_keys([" ++
   join ", " ((fun kv : string * string => "'" ++ fst kv ++ "'") <$> d) ++
   "])")%string.

Section Methods.
Context {W : World}.

(** The [platform] property: the enclosure's platform identifier when the
    configuration and its enclosure section are non-empty. *)
Definition platform (s : TimeSkill) : option string :=
  if bool_decide (config_core s = ∅) then None
  else
    match config_core s !! "enclosure" with
    | Some enclosure =>
      if bool_decide (enclosure = ∅) then None else enclosure !! "platform"
    | None => None
    end.

Definition platform_is (name : string) (s : TimeSkill) : bool :=
  bool_decide (platform s = Some name).

(** The [display_when_idle] property. *)
Definition display_when_idle (s : TimeSkill) : bool :=
  if platform_is MARK_I s then default false (settings s !! "show_time")
  else false.

Definition speak_dialog (name : option string) (data : option DialogData)
    (cache_key : option string) (wait : bool) : M () :=
  emit (SpeakDialog name data cache_key wait).

Definition cache_dialog (name : option string) (data : option DialogData)
    (cache_key : string) : M () :=
  emit (CacheDialog name data cache_key) ;;
  match cache_dialog_error with
  | Some e => raise e
  | None => ret ()
  end.

(** [self.enclosure.display_manager.get_active()]: the call is made
    and answers with the owner of the faceplate. *)
Definition get_active : M string :=
  emit GetActive ;; gets display_active.

Definition remove_active : M () :=
  emit RemoveActive ;; modify (set_display_active "").

(** [msg and msg.data.get("active_alarms", 0) > 0]: without an answer on
    the bus the value of the expression is [msg] itself, [None]. *)
Definition _is_alarm_set : M (option bool) :=
  emit (BusWaitForResponse "private.mycroftai.has_alarm") ;;
  ret match has_alarm_response with
      | Some active_alarms => Some (0 <? default 0 active_alarms)%Z
      | None => None
      end.

(** [FaceplateRenderer(self.enclosure, display_time).render_time(alarm)]
    is one drawing call on the enclosure. *)
Definition _display_mark_i (display_time : string) : M () :=
  idle <- gets display_when_idle ;;
  alarm_is_set <-
    (if idle : bool then _is_alarm_set else ret (Some false)) ;;
  emit (RenderTime display_time alarm_is_set).

Definition _display_gui (response : Response) : M () :=
  cfg <- gets config_core ;;
  let display_time := get_display_time (date_time response) cfg in
  mark_ii <- gets (platform_is MARK_II) ;;
  page_name <-
    (if mark_ii : bool then
       match split ":" display_time with
       | [hour; minute] =>
         gui_set "hour" hour ;;
         gui_set "minute" minute ;;
         match geolocation response with
         | Some _ => gui_set "location" (get_display_location response)
         | None => ret ()
         end ;;
         ret "time-mark-ii.qml"
       | [] | [_] => raise (ValueError "not enough values to unpack")
       | _ => raise (ValueError "too many values to unpack")
       end
     else
       gui_set "timeString" display_time ;;
       ret "time-scalable.qml") ;;
  emit (GuiShowPage page_name true).

Definition _display_time (response : Response) : M () :=
  mark_i <- gets (platform_is MARK_I) ;;
  if mark_i : bool then
    emit DeactivateMouthEvents ;;
    cfg <- gets config_core ;;
    _display_mark_i (get_display_time (date_time response) cfg)
  else
    connected <- gets gui_connected ;;
    if connected : bool then _display_gui response else ret ().

Definition _clear_mark_i_display (delay : Z) : M () :=
  mark_i <- gets (platform_is MARK_I) ;;
  if mark_i : bool then
    emit (Sleep delay) ;;
    emit MouthReset ;;
    emit ActivateMouthEvents ;;
    remove_active
  else ret ().

Definition _respond (response : Response) (cache_key : option string)
  : M () :=
  _display_time response ;;
  speak_dialog (dialog_name response) (dialog_data response) cache_key true ;;
  mark_i <- gets (platform_is MARK_I) ;;
  if mark_i : bool then _clear_mark_i_display TEN_SECONDS
  else
    connected <- gets gui_connected ;;
    if connected : bool then emit GuiRelease else ret ().

Definition _handle_location_not_found (response : Response) : M () :=
  speak_dialog (Some "location-not-found")
    (Some {[ "location" := requested_location response ]}) None false.

(** The minute after the one [now] lies in:
    [datetime(now.year, ..., now.minute) + timedelta(minutes=1)]. *)
Definition next_minute_of (now : datetime) : result datetime :=
  match new_datetime (year now) (month now) (day now) (hour now)
          (minute now) 0 0 None with
  | Raise e => Raise e
  | Ok truncated =>
    match new_timedelta 0 0 0 0 1 0 0 with
    | Raise e => Raise e
    | Ok one_minute => datetime_add truncated one_minute
    end
  end.

Definition _cache_current_time_tts : M () :=
  try_except
    (cancel_scheduled_event "CacheTTS" ;;
     next_minute <- lift (next_minute_of datetime_now) ;;
     schedule_event next_minute "CacheTTS" ;;
     let '(built, response) := build_current_time_response "" new_response in
     lift built ;;
     cache_key <- gets _current_time_cache_key ;;
     cache_dialog (dialog_name response) (dialog_data response) cache_key)
    (fun e => emit (LogException "Error while caching TTS" e)).

Definition _handle_current_time (request : Message) : M () :=
  emit (LogInfo ("request data: " ++ str_dict_keys (data request))%string) ;;
  match dict_get "utterance" (data request) with
  | None => raise (KeyError "utterance")
  | Some utterance =>
    let '(built, response) :=
      build_current_time_response utterance new_response in
    match built with
    | Raise LocationNotFoundError => _handle_location_not_found response
    | Raise e => raise e
    | Ok _ =>
      key <- gets _current_time_cache_key ;;
      let cache_key :=
        if negb (truthy_opt (requested_location response))
        then Some key else None in
      _respond response cache_key ;;
      _cache_current_time_tts
    end
  end.

Definition _handle_future_time (request : Message) : M () :=
  match dict_get "utterance" (data request) with
  | None => raise (KeyError "utterance")
  | Some utterance =>
    let '(built, response) :=
      build_future_time_response utterance new_response in
    match built with
    | Raise LocationNotFoundError => _handle_location_not_found response
    | Raise e => raise e
    | Ok _ =>
      match date_time response with
      | None => _handle_current_time request
      | Some _ => _respond response None
      end
    end
  end.

(** [display_idle], the repeating "IdleTime" event of the Mark I. *)
Definition display_idle : M () :=
  active <- get_active ;;
  let display_is_idle := negb (truthy active) in
  idle_setting <- gets display_when_idle ;;
  if idle_setting && display_is_idle then
    cfg <- gets config_core ;;
    let display_time := get_display_time (Some (now None)) cfg in
    shown <- gets displayed_time ;;
    if negb (bool_decide (Some display_time = shown)) then
      modify (set_displayed_time (Some display_time)) ;;
      _display_mark_i display_time ;;
      remove_active
    else ret ()
  else ret ().

End Methods.
End Skill.

(** ** An English world to run the skill in *)

Module English.
Import PyStr.
Local Open Scope Z_scope.

Definition digit_value (c : ascii) : option Z :=
  let n := Z.of_nat (nat_of_ascii c) in
  if (48 <=? n) && (n <=? 57) then Some (n - 48) else None.

Fixpoint numeral_go (acc : Z) (s : string) : option Z :=
  match s with
  | EmptyString => Some acc
  | String c s' =>
    match digit_value c with
    | Some d => numeral_go (acc * 10 + d) s'
    | None => None
    end
  end.

(** A numeral of the vocabulary: a run of decimal digits. *)
Definition numeral (w : string) : option Z :=
  if truthy w then numeral_go 0 w else None.

(** A unit of the vocabulary, in seconds. *)
Definition unit_seconds (w : string) : option Z :=
  if bool_decide (w ∈ ["second"; "seconds"]%string) then Some 1
  else if bool_decide (w ∈ ["minute"; "minutes"]%string) then Some 60
  else if bool_decide (w ∈ ["hour"; "hours"]%string) then Some 3600
  else if bool_decide (w ∈ ["day"; "days"]%string) then Some 86400
  else if bool_decide (w ∈ ["week"; "weeks"]%string) then Some 604800
  else None.

Definition quantity (n u : string) : option Z :=
  match numeral n, unit_seconds u with
  | Some k, Some s => Some (k * s)
  | _, _ => None
  end.

(** Cut the numeral + unit pairs out of the pieces of an utterance.  The
    blanks around a pair stay, so an empty piece stands in its place;
    the seconds of the pairs are collected in order. *)
Fixpoint cut_durations (ws : list string) : list string * list Z :=
  match ws with
  | [] => ([], [])
  | w :: tail =>
    match tail with
    | [] => ([w], [])
    | u :: rest =>
      match quantity w u with
      | Some secs =>
        let '(kept, spans) := cut_durations rest in
        (EmptyString :: kept, secs :: spans)
      | None =>
        let '(kept, spans) := cut_durations tail in
        (w :: kept, spans)
      end
    end
  end.

(** Modelled from the spec: a Duration Extractor for English.  It scans
    for numeral + unit pairs ("5 hours", "1 hour 30 minutes"), removes
    the matched spans and nothing else, so that a word in front of a pair
    or behind it ("in", "from now") stays in the remainder, and returns
    the remainder, trimmed, with the cumulative duration; without a match
    the remainder is the utterance and the duration is zero. *)
Definition en_extract_duration (utterance : string) : string * timedelta :=
  match cut_durations (split " " utterance) with
  | (_, []) => (utterance, zero_duration)
  | (kept, spans) =>
    let total := foldr Z.add 0 spans in
    (strip (join " " kept),
     mk_timedelta (total / 86400) (total mod 86400) 0)
  end.

Definition london : Geolocation :=
  mk_geolocation "London" (Some "England") (Some "United Kingdom")
    51507351 (-127758) "Europe/London".

Definition tokyo : Geolocation :=
  mk_geolocation "Tokyo" None (Some "Japan") 35689487 139691711 "Asia/Tokyo".

Definition en_geolocate (q : string) : option Geolocation :=
  if String.eqb q "london" then Some london
  else if String.eqb q "tokyo" then Some tokyo
  else None.

(** A wall clock stopped at 2021-07-30 12:34:56.789 UTC. *)
Definition en_now (tz : option string) : datetime :=
  match tz with
  | None => mk_datetime 2021 7 30 12 34 56 789000 (Some "UTC")
  | Some z =>
    if String.eqb z "Europe/London"
    then mk_datetime 2021 7 30 13 34 56 789000 tz
    else if String.eqb z "Asia/Tokyo"
    then mk_datetime 2021 7 30 21 34 56 789000 tz
    else mk_datetime 2021 7 30 12 34 56 789000 tz
  end.

Definition digit_char (d : Z) : ascii := ascii_of_nat (Z.to_nat (48 + d)).

Definition two_digits (n : Z) : string :=
  String (digit_char (n / 10 mod 10)) (String (digit_char (n mod 10)) "").

(** "HH:MM" on the 24 hour clock. *)
Definition hh_mm (dt : datetime) : string :=
  (two_digits (hour dt) ++ ":" ++ two_digits (minute dt))%string.

Definition en_display_time (odt : option datetime) (_ : Config) : string :=
  match odt with
  | Some dt => hh_mm dt
  | None => ""
  end.

Definition world (cache_error : option exn) : World := {|
  extract_duration := en_extract_duration;
  location_rx := ["in"; "at"]%string;
  geolocate := en_geolocate;
  now := en_now;
  nice_time := hh_mm;
  get_display_time := en_display_time;
  datetime_now := mk_datetime 2021 7 30 12 34 56 789000 None;
  has_alarm_response := Some (Some 1);
  cache_dialog_error := cache_error
|}.

Definition config (platform : string) : Config :=
  {[ "enclosure" := {[ "platform" := platform ]} ]}.

(** A freshly initialised skill on the given platform. *)
Definition skill (platform : string) (connected show_time : bool)
  : TimeSkill :=
  mk_skill (config platform) {[ "show_time" := show_time ]} None
    "mycroft-date-time.current-time" ∅ connected "" [] [].

Definition request (utterance : string) : Message :=
  mk_message [("utterance", utterance)].

End English.

Module Words.
Import PyStr.


End Words.

(** ** Views used to reason about the calendar functions *)

Module Calendar.
Local Open Scope Z_scope.

(** The month and day that [ord2ymd] derives from a day number within
    the year (counted from 0). *)
Definition month_day (leapyear : bool) (n : Z) : Z * Z :=
  let month := Z.shiftr (n + 50) 5 in
  let preceding :=
    tbl DAYS_BEFORE_MONTH month + b2z ((2 <? month) && leapyear) in
  if n <? preceding then
    let month := month - 1 in
    let preceding :=
      preceding - (tbl DAYS_IN_MONTH month + b2z ((month =? 2) && leapyear)) in
    (month, n - preceding + 1)
  else (month, n - preceding + 1).

(** [days_in_month] and [days_before_month] by leap flag. *)
Definition dim (leap : bool) (m : Z) : Z :=
  if (m =? 2) && leap then 29 else tbl DAYS_IN_MONTH m.

Definition dbm (leap : bool) (m : Z) : Z :=
  tbl DAYS_BEFORE_MONTH m + b2z ((2 <? m) && leap).

(** A year minus one written as [400a + 100b + 4c + e] is leap when it
    closes a four year cycle that is not cut by a century. *)
Definition leap_of (b c e : Z) : bool :=
  (e =? 3) && (negb (c =? 24) || (b =? 3)).

Definition day_number (a b c e r : Z) : Z :=
  146097 * a + 36524 * b + 1461 * c + 365 * e + r.

(** [month_day] inverts [dbm] on the [k] day numbers from [n] on. *)
Fixpoint check_doy (leap : bool) (k : nat) (n : Z) : bool :=
  match k with
  | O => true
  | S k' =>
    (let '(m, d) := month_day leap n in
     (1 <=? m) && (m <=? 12) && (1 <=? d) && (d <=? dim leap m) &&
     (dbm leap m + d - 1 =? n)) && check_doy leap k' (n + 1)
  end.

(** The last minute a [datetime] can hold. *)
Definition last_minute (dt : datetime) : bool :=
  (year dt =? MAXYEAR) && (month dt =? 12) && (day dt =? 31) &&
  (hour dt =? 23) && (minute dt =? 59).

End Calendar.

(** The world with another geolocation capability. *)
Definition with_geolocate (lookup : string -> option Geolocation) (W : World)
  : World := {|
  extract_duration := @extract_duration W;
  location_rx := @location_rx W;
  geolocate := lookup;
  now := @now W;
  nice_time := @nice_time W;
  get_display_time := @get_display_time W;
  datetime_now := @datetime_now W;
  has_alarm_response := @has_alarm_response W;
  cache_dialog_error := @cache_dialog_error W
|}.


(** The clock reading a builder takes for the place named in [text]:
    [now] in the zone of the place when it resolves, local [now] when no
    place is named, none when the place is not found. *)
Definition base_time {W : World} (text : string) : option datetime :=
  match ResponseModel.extract_location text with
  | Some q =>
    match geolocate q with
    | Some geo => Some (now (Some (timezone geo)))
    | None => None
    end
  | None => Some (now None)
  end.

(** The reading of the fallback property that covers every utterance
    without duration: the future-time build returns with [date_time]
    unset and the handler does what the current-time handler does. *)
Definition zero_duration_always_falls_back (W : World) : Prop :=
  forall (request : Message) (utterance : string) (s : TimeSkill),
    Skill.dict_get "utterance" (data request) = Some utterance ->
    timedelta_bool (snd (@extract_duration W utterance)) = false ->
    (exists response,
       @ResponseModel.build_future_time_response W utterance
         ResponseModel.new_response = (Ok (), response) /\
       date_time response = None) /\
    @Skill._handle_future_time W request s =
    @Skill._handle_current_time W request s.

(** What the location-not-found reply adds to the host calls. *)
Definition not_found_call (q : string) : Effect :=
  SpeakDialog (Some "location-not-found")
    (Some {[ "location" := Some q ]}) None false.

Definition request_log (request : Message) : Effect :=
  LogInfo ("request data: " ++ Skill.str_dict_keys (data request))%string.

Definition is_ok {A} (r : result A) : bool :=
  match r with Ok _ => true | Raise _ => false end.

Definition is_speak (e : Effect) : bool :=
  match e with SpeakDialog _ _ _ _ => true | _ => false end.

(** A statement leaves an observation of the skill as it was. *)
Definition preserves {A X} (f : TimeSkill -> X) (c : M A) : Prop :=
  forall s, f (snd (c s)) = f s.

(** A statement returns whatever the state, it never raises. *)
Definition returns {A} (c : M A) : Prop :=
  forall s, is_ok (fst (c s)) = true.

(** The skill once the "CacheTTS" run is re-armed for [next]: the pending
    runs of that name dropped, one for [next] added. *)
Definition rearmed (next : datetime) (s : TimeSkill) : TimeSkill :=
  set_scheduled
    (List.filter (fun ev => negb (String.eqb (fst ev) "CacheTTS")) (scheduled s)
     ++ [("CacheTTS", next)]) s.

Section CacheTaskShape.
Context {W : World}.
Import Skill ResponseModel.

(** [_cache_current_time_tts] with any computation in the place of
    building and caching the response. *)
Definition cache_task (work : M ()) : M () :=
  try_except
    (cancel_scheduled_event "CacheTTS" ;;
     next_minute <- lift (next_minute_of datetime_now) ;;
     schedule_event next_minute "CacheTTS" ;;
     work)
    (fun e => emit (LogException "Error while caching TTS" e)).

(** The computation that [_cache_current_time_tts] runs there. *)
Definition build_and_cache : M () :=
  let '(built, response) := build_current_time_response "" new_response in
  lift built ;;
  cache_key <- gets _current_time_cache_key ;;
  cache_dialog (dialog_name response) (dialog_data response) cache_key.

End CacheTaskShape.

(** The speech calls among the host calls, oldest first. *)
Definition speech (s : TimeSkill)
  : list (option string * option DialogData * option string * bool) :=
  omap (fun e =>
          match e with
          | SpeakDialog name data cache_key wait =>
            Some (name, data, cache_key, wait)
          | _ => None
          end) (effects s).

(** The drawing calls on the Mark I faceplate among the host calls. *)
Definition drawings (s : TimeSkill) : list (string * option bool) :=
  omap (fun e =>
          match e with
          | RenderTime display_time alarm => Some (display_time, alarm)
          | _ => None
          end) (effects s).

(** ** The skill in its host: construction, initialisation, idle events

    The rest of [TimeSkill]: the methods that register callbacks, keep
    the repeating "IdleTime" event of the Mark I and wrap the request
    handlers.  They act on the skill and on what the host keeps for it. *)

(** The bound methods the skill hands to the host as callbacks. *)
Inductive Callback : Type :=
  | CbHandleWakeWordDetected
  | CbHandleSpeak
  | CbHandleSpeechRecognitionUnknown
  | CbCacheCurrentTimeTts
  | CbDisplayIdle.

(** Calls on host modules made by these methods only. *)
Inductive HostCall : Type :=
  | DateTimeFormatCache (lang : string)
  | WaitWhileSpeaking
  | ActivityBegin
  | ActivityEnd.

(** A repeating event the skill asked for: callback, first run, seconds
    between runs. *)
Record Repeating : Type := mk_repeating {
  rep_name : string;
  rep_handler : Callback;
  rep_when : datetime;
  rep_frequency : Z
}.

(** The skill with the state the host keeps for it. *)
Record Host : Type := mk_host {
  time_skill : TimeSkill;
  skill_id : string;
  lang : string;
  (** [add_event] registrations, oldest first. *)
  events : list (string * Callback);
  (** Intents switched off with [disable_intent]. *)
  disabled_intents : list string;
  (** Repeating events asked for and not cancelled since. *)
  repeating : list Repeating;
  host_calls : list HostCall
}.

(** Statements over the skill in its host. *)
Definition H (A : Type) : Type := Host -> result A * Host.

Definition hret {A} (a : A) : H A := fun h => (Ok a, h).

Definition hbind {A B} (c : H A) (k : A -> H B) : H B :=
  fun h =>
    match c h with
    | (Ok a, h') => k a h'
    | (Raise e, h') => (Raise e, h')
    end.

Definition hgets {A} (f : Host -> A) : H A := fun h => (Ok (f h), h).

Definition hmodify (f : Host -> Host) : H () := fun h => (Ok (), f h).

Declare Scope host_scope.
Delimit Scope host_scope with host.
Notation "x <- c ;; k" := (hbind c (fun x => k))
  (at level 100, c at next level, right associativity) : host_scope.
Notation "c ;; k" := (hbind c (fun _ => k))
  (at level 100, right associativity) : host_scope.

Definition set_time_skill (s : TimeSkill) (h : Host) : Host :=
  mk_host s (skill_id h) (lang h) (events h) (disabled_intents h)
    (repeating h) (host_calls h).

Definition set_events (l : list (string * Callback)) (h : Host) : Host :=
  mk_host (time_skill h) (skill_id h) (lang h) l (disabled_intents h)
    (repeating h) (host_calls h).

Definition set_disabled_intents (l : list string) (h : Host) : Host :=
  mk_host (time_skill h) (skill_id h) (lang h) (events h) l
    (repeating h) (host_calls h).

Definition set_repeating (l : list Repeating) (h : Host) : Host :=
  mk_host (time_skill h) (skill_id h) (lang h) (events h)
    (disabled_intents h) l (host_calls h).

Definition set_host_calls (l : list HostCall) (h : Host) : Host :=
  mk_host (time_skill h) (skill_id h) (lang h) (events h)
    (disabled_intents h) (repeating h) l.

Definition set_settings (m : gmap string bool) (s : TimeSkill) : TimeSkill :=
  mk_skill (config_core s) m (displayed_time s) (_current_time_cache_key s)
    (gui s) (gui_connected s) (display_active s) (scheduled s) (effects s).

Definition set_current_time_cache_key (k : string) (s : TimeSkill)
  : TimeSkill :=
  mk_skill (config_core s) (settings s) (displayed_time s) k
    (gui s) (gui_connected s) (display_active s) (scheduled s) (effects s).

(** A method of the skill run in the host: it acts on the skill only. *)
Definition on_skill {A} (c : M A) : H A :=
  fun h => let '(r, s') := c (time_skill h) in (r, set_time_skill s' h).

Definition host_call (c : HostCall) : H () :=
  hmodify (fun h => set_host_calls (host_calls h ++ [c]) h).

(** [with self.activity(): body]: the activity is entered, the body
    runs, the activity is left. *)
Definition with_activity {A} (body : H A) : H A :=
  fun h =>
    let '(_, h0) := host_call ActivityBegin h in
    let '(r, h1) := body h0 in
    let '(_, h2) := host_call ActivityEnd h1 in
    (r, h2).

Module Lifecycle.
Import Skill.
Local Open Scope host_scope.

(** [self.add_event(name, handler)]. *)
Definition add_event (name : string) (handler : Callback) : H () :=
  hmodify (fun h => set_events (events h ++ [(name, handler)]) h).

(** [self.disable_intent(name)]. *)
Definition disable_intent (name : string) : H () :=
  hmodify (fun h => set_disabled_intents (disabled_intents h ++ [name]) h).

(** [self.schedule_repeating_event(handler, when, frequency, name)]. *)
Definition schedule_repeating_event (handler : Callback) (when : datetime)
    (frequency : Z) (name : string) : H () :=
  hmodify (fun h =>
    set_repeating
      (repeating h ++ [mk_repeating name handler when frequency]) h).

(** [self.cancel_scheduled_event(name)] seen from the host: the events
    of that name are dropped, one-shot and repeating. *)
Definition cancel_event (name : string) : H () :=
  on_skill (cancel_scheduled_event name) ;;
  hmodify (fun h =>
    set_repeating
      (List.filter (fun ev => negb (String.eqb (rep_name ev) name))
         (repeating h)) h).

Section Methods.
Context {W : World}.

(** [TimeSkill()] in a host that supplies configuration, settings, the
    display connection and the enclosure, whose faceplate is owned by
    [active] (nobody when empty); the constructor sets [displayed_time]
    to [None], and the cache key is assigned by [initialize]. *)
Definition create_skill (config : Config) (stored : gmap string bool)
    (connected : bool) (active id language : string) : Host :=
  mk_host (mk_skill config stored None "" ∅ connected active [] [])
    id language [] [] [] [].

Definition _define_event_handlers : H () :=
  add_event "recognizer_loop:wakeword" CbHandleWakeWordDetected ;;
  add_event "speak" CbHandleSpeak ;;
  add_event "mycroft.speech.recognition.unknown"
    CbHandleSpeechRecognitionUnknown.

Definition _check_mark_i_idle_setting : H () :=
  idle <- hgets (fun h => display_when_idle (time_skill h)) ;;
  mark_i <- hgets (fun h => platform_is MARK_I (time_skill h)) ;;
  if idle && mark_i then
    schedule_repeating_event CbDisplayIdle (now None) TEN_SECONDS "IdleTime"
  else hret ().

Definition initialize : H () :=
  language <- hgets lang ;;
  host_call (DateTimeFormatCache language) ;;
  _define_event_handlers ;;
  _check_mark_i_idle_setting ;;
  mark_i <- hgets (fun h => platform_is MARK_I (time_skill h)) ;;
  (if negb mark_i then disable_intent "mark-one-idle" else hret ()) ;;
  id <- hgets skill_id ;;
  on_skill (modify (set_current_time_cache_key (id ++ ".current-time"))) ;;
  add_event "mycroft.started" CbCacheCurrentTimeTts.

Definition handle_show_time : H () :=
  with_activity
    (on_skill
       (modify (fun s => set_settings (<["show_time" := true]> (settings s)) s)) ;;
     _check_mark_i_idle_setting).

Definition handle_wake_word_detected : H () :=
  mark_i <- hgets (fun h => platform_is MARK_I (time_skill h)) ;;
  idle <- hgets (fun h => display_when_idle (time_skill h)) ;;
  if mark_i && idle then
    on_skill (_clear_mark_i_display 0) ;;
    cancel_event "IdleTime"
  else hret ().

Definition handle_speak : H () :=
  mark_i <- hgets (fun h => platform_is MARK_I (time_skill h)) ;;
  idle <- hgets (fun h => display_when_idle (time_skill h)) ;;
  if mark_i && idle then
    host_call WaitWhileSpeaking ;;
    on_skill (emit (Sleep 5)) ;;
    _check_mark_i_idle_setting
  else hret ().

Definition handle_speech_recognition_unknown : H () :=
  _check_mark_i_idle_setting.

(** [load_regex_files] is overridden to do nothing. *)
Definition load_regex_files : H () := hret ().

(** What the host does with a registered callback when its event fires. *)
Definition run_callback (cb : Callback) : H () :=
  match cb with
  | CbHandleWakeWordDetected => handle_wake_word_detected
  | CbHandleSpeak => handle_speak
  | CbHandleSpeechRecognitionUnknown => handle_speech_recognition_unknown
  | CbCacheCurrentTimeTts => on_skill _cache_current_time_tts
  | CbDisplayIdle => on_skill display_idle
  end.

End Methods.
End Lifecycle.

(** The repeating events called [name]. *)
Definition repeating_named (name : string) (h : Host) : list Repeating :=
  List.filter (fun ev => String.eqb (rep_name ev) name) (repeating h).

(** The "IdleTime" event as [_check_mark_i_idle_setting] asks for it. *)
Definition idle_event {W : World} : Repeating :=
  mk_repeating "IdleTime" CbDisplayIdle (now None) TEN_SECONDS.

(** The attributes of the skill that no handler assigns. *)
Definition fixed_part (s : TimeSkill)
  : Config * gmap string bool * option string * string :=
  (config_core s, settings s, displayed_time s, _current_time_cache_key s).

(** * Properties *)

(** ** Calendar arithmetic *)

Module CalendarFacts.
Import Calendar.
Local Open Scope Z_scope.

Lemma check_doy_spec leap k : forall n0 n,
  check_doy leap k n0 = true -> n0 <= n < n0 + Z.of_nat k ->
  let '(m, d) := month_day leap n in
  1 <= m <= 12 /\ 1 <= d <= dim leap m /\ dbm leap m + d - 1 = n.
Proof.
  induction k as [|k IH]; intros n0 n Hc Hn; [lia|].
  simpl in Hc. apply andb_true_iff in Hc as [H1 H2].
  destruct (Z.eq_dec n n0) as [->|Hne].
  - destruct (month_day leap n0) as [m d].
    repeat (apply andb_true_iff in H1 as [H1 ?]). lia.
  - apply (IH (n0 + 1)); [exact H2|lia].
Qed.

Lemma month_day_spec leap n :
  0 <= n < 365 + b2z leap ->
  let '(m, d) := month_day leap n in
  1 <= m <= 12 /\ 1 <= d <= dim leap m /\ dbm leap m + d - 1 = n.
Proof.
  intros Hn. destruct leap; simpl b2z in Hn.
  - apply (check_doy_spec true 366 0); [vm_compute; reflexivity|lia].
  - apply (check_doy_spec false 365 0); [vm_compute; reflexivity|lia].
Qed.

Ltac month_cases m H :=
  let Hm := fresh "Hm" in
  assert (Hm : m = 1 \/ m = 2 \/ m = 3 \/ m = 4 \/ m = 5 \/ m = 6 \/ m = 7 \/
               m = 8 \/ m = 9 \/ m = 10 \/ m = 11 \/ m = 12) by lia;
  clear H; repeat (destruct Hm as [->|Hm]); try subst m.

Lemma dbm_lt leap m m' :
  1 <= m <= 12 -> 1 <= m' <= 12 -> m < m' ->
  dbm leap m + dim leap m <= dbm leap m'.
Proof.
  intros H1 H2 Hlt.
  destruct leap; month_cases m H1; month_cases m' H2;
    try lia; vm_compute; congruence.
Qed.

Lemma dbm_dim_le leap m :
  1 <= m <= 12 ->
  0 <= dbm leap m /\ 28 <= dim leap m <= 31 /\
  dbm leap m + dim leap m <= 365 + b2z leap.
Proof.
  intros H1.
  destruct leap; month_cases m H1; vm_compute; intuition congruence.
Qed.

Lemma month_day_unique leap m d :
  1 <= m <= 12 -> 1 <= d <= dim leap m ->
  month_day leap (dbm leap m + d - 1) = (m, d).
Proof.
  intros Hm Hd.
  pose proof (dbm_dim_le leap m Hm) as (Hb0 & _ & Hb).
  pose proof (month_day_spec leap (dbm leap m + d - 1)) as Hs.
  destruct (month_day leap (dbm leap m + d - 1)) as [m' d'].
  destruct Hs as (Hm' & Hd' & Heq); [lia|].
  destruct (Z.lt_trichotomy m m') as [Hlt|[->|Hgt]].
  - pose proof (dbm_lt leap m m' Hm Hm' Hlt). lia.
  - f_equal; lia.
  - pose proof (dbm_lt leap m' m Hm' Hm Hgt). lia.
Qed.

Lemma ord2ymd_eq n :
  ord2ymd n =
  let n := n - 1 in
  let n400 := n / DI400Y in
  let n := n mod DI400Y in
  let n100 := n / DI100Y in
  let n := n mod DI100Y in
  let n4 := n / DI4Y in
  let n := n mod DI4Y in
  let n1 := n / 365 in
  let n := n mod 365 in
  let year := n400 * 400 + 1 + n100 * 100 + n4 * 4 + n1 in
  if (n1 =? 4) || (n100 =? 4) then (year - 1, 12, 31)
  else
    let '(m, d) := month_day (leap_of n100 n4 n1) n in
    (year, m, d).
Proof.
  unfold ord2ymd, month_day, leap_of. cbv zeta.
  destruct (_ || _); [reflexivity|].
  destruct (_ <? _); reflexivity.
Qed.

Lemma div_mod_digit k q r :
  0 <= r < k -> (r + q * k) / k = q /\ (r + q * k) mod k = r.
Proof.
  intros Hr. rewrite Z.div_add, Z.mod_add by lia.
  rewrite Z.div_small, Z.mod_small by lia. lia.
Qed.

(** Peel the digit [q] of weight [k] off the day number in the goal. *)
Ltac peel q k rest :=
  let Hd := fresh "Hd" in
  let Hm := fresh "Hm" in
  destruct (div_mod_digit k q rest) as [Hd Hm]; [lia|];
  rewrite ?Hd, ?Hm; clear Hd Hm.

Lemma ord2ymd_regular a b c e r :
  0 <= b < 4 -> 0 <= c < 25 -> 0 <= e < 4 -> 0 <= r < 365 ->
  ord2ymd (day_number a b c e r + 1) =
    let '(m, d) := month_day (leap_of b c e) r in
    (400 * a + 100 * b + 4 * c + e + 1, m, d).
Proof.
  intros Hb Hc He Hr. rewrite ord2ymd_eq.
  unfold day_number, DI400Y, DI100Y, DI4Y. cbv zeta.
  replace (146097 * a + 36524 * b + 1461 * c + 365 * e + r + 1 - 1)
    with ((r + e * 365 + c * 1461 + b * 36524) + a * 146097) by lia.
  peel a 146097 (r + e * 365 + c * 1461 + b * 36524).
  peel b 36524 (r + e * 365 + c * 1461).
  peel c 1461 (r + e * 365).
  peel e 365 r.
  replace (e =? 4) with false by (symmetry; apply Z.eqb_neq; lia).
  replace (b =? 4) with false by (symmetry; apply Z.eqb_neq; lia).
  simpl orb. cbv iota.
  destruct (month_day _ r) as [m d]. f_equal. f_equal. lia.
Qed.

Lemma ord2ymd_leap_end a b c e :
  0 <= b < 4 -> 0 <= c < 25 -> 0 <= e < 4 -> leap_of b c e = true ->
  ord2ymd (day_number a b c e 365 + 1) =
    (400 * a + 100 * b + 4 * c + e + 1, 12, 31).
Proof.
  intros Hb Hc He Hl. unfold leap_of in Hl.
  apply andb_true_iff in Hl as [He3 Hl]. apply Z.eqb_eq in He3. subst e.
  rewrite ord2ymd_eq. unfold day_number, DI400Y, DI100Y, DI4Y. cbv zeta.
  destruct (Z.eq_dec c 24) as [->|Hc24].
  - assert (b = 3) as ->.
    { apply orb_true_iff in Hl as [Hl|Hl]; [discriminate|].
      by apply Z.eqb_eq in Hl. }
    replace (146097 * a + 36524 * 3 + 1461 * 24 + 365 * 3 + 365 + 1 - 1)
      with (146096 + a * 146097) by lia.
    peel a 146097 146096.
    change (146096 / 36524) with 4. rewrite orb_true_r.
    f_equal. f_equal. change (146096 mod 36524) with 0.
    change (0 mod 1461) with 0. change (0 / 1461) with 0.
    change (0 / 365) with 0. lia.
  - replace (146097 * a + 36524 * b + 1461 * c + 365 * 3 + 365 + 1 - 1)
      with ((1460 + c * 1461 + b * 36524) + a * 146097) by lia.
    peel a 146097 (1460 + c * 1461 + b * 36524).
    peel b 36524 (1460 + c * 1461).
    peel c 1461 1460.
    change (1460 / 365) with 4. simpl orb. cbv iota.
    f_equal. f_equal. lia.
Qed.

Lemma year_digits y :
  1 <= y ->
  exists a b c e,
    y = 400 * a + 100 * b + 4 * c + e + 1 /\
    0 <= a /\ 0 <= b < 4 /\ 0 <= c < 25 /\ 0 <= e < 4.
Proof.
  intros Hy.
  exists ((y - 1) / 400), ((y - 1) mod 400 / 100),
    ((y - 1) mod 100 / 4), ((y - 1) mod 4).
  Z.div_mod_to_equations. lia.
Qed.

Lemma days_before_year_digits a b c e :
  0 <= b < 4 -> 0 <= c < 25 -> 0 <= e < 4 ->
  days_before_year (400 * a + 100 * b + 4 * c + e + 1) = day_number a b c e 0.
Proof.
  intros. unfold days_before_year, day_number. Z.div_mod_to_equations. lia.
Qed.

Lemma is_leap_digits a b c e :
  0 <= b < 4 -> 0 <= c < 25 -> 0 <= e < 4 ->
  is_leap (400 * a + 100 * b + 4 * c + e + 1) = leap_of b c e.
Proof.
  intros. unfold is_leap, leap_of.
  apply eq_true_iff_eq.
  rewrite !andb_true_iff, !orb_true_iff, !negb_true_iff, !Z.eqb_eq, !Z.eqb_neq.
  Z.div_mod_to_equations. lia.
Qed.

(** Every day number from 0 on has such digits: either a day before the
    365th of its year, or the 366th day of a leap year. *)
Lemma day_digits n :
  0 <= n ->
  exists a b c e r,
    n = day_number a b c e r /\
    0 <= a /\ 0 <= b < 4 /\ 0 <= c < 25 /\ 0 <= e < 4 /\
    (0 <= r < 365 \/ (r = 365 /\ leap_of b c e = true)).
Proof.
  intros Hn. unfold day_number.
  set (a := n / 146097). set (R := n mod 146097).
  destruct (Z.eq_dec R 146096) as [HR|HR].
  { exists a, 3, 24, 3, 365. subst a R. split; [Z.div_mod_to_equations; lia|].
    repeat split; try (Z.div_mod_to_equations; lia). right. split; reflexivity. }
  set (b := R / 36524). set (R2 := R mod 36524).
  set (c := R2 / 1461). set (R3 := R2 mod 1461).
  destruct (Z.eq_dec R3 1460) as [HR3|HR3].
  { exists a, b, c, 3, 365. subst a b c R3 R2 R.
    split; [Z.div_mod_to_equations; lia|].
    repeat split; try (Z.div_mod_to_equations; lia).
    right. split; [reflexivity|]. unfold leap_of. simpl.
    apply orb_true_iff. left. apply negb_true_iff, Z.eqb_neq.
    Z.div_mod_to_equations. lia. }
  exists a, b, c, (R3 / 365), (R3 mod 365). subst a b c R3 R2 R.
  split; [Z.div_mod_to_equations; lia|].
  repeat split; try (Z.div_mod_to_equations; lia).
Qed.

(** [fromordinal] after [toordinal] gives the date back. *)
Lemma ord2ymd_ymd2ord y m d :
  1 <= y -> 1 <= m <= 12 -> 1 <= d <= days_in_month y m ->
  ord2ymd (ymd2ord y m d) = (y, m, d).
Proof.
  intros Hy Hm Hd.
  destruct (year_digits y Hy) as (a & b & c & e & -> & Ha & Hb & Hc & He).
  unfold ymd2ord.
  change (days_in_month ?y m) with (dim (is_leap y) m) in Hd.
  change (days_before_month ?y m) with (dbm (is_leap y) m).
  rewrite is_leap_digits in * by assumption.
  rewrite days_before_year_digits by assumption.
  pose proof (dbm_dim_le (leap_of b c e) m Hm) as (Hb0 & _ & Hle).
  pose proof (month_day_unique (leap_of b c e) m d Hm Hd) as Hmd.
  set (r := dbm (leap_of b c e) m + d - 1) in *.
  replace (day_number a b c e 0 + dbm (leap_of b c e) m + d)
    with (day_number a b c e r + 1) by (unfold day_number, r; lia).
  destruct (Z.eq_dec r 365) as [Hr|Hr].
  - assert (Hl : leap_of b c e = true)
      by (destruct (leap_of b c e); [reflexivity|simpl in Hle; lia]).
    rewrite Hr, ord2ymd_leap_end by assumption.
    rewrite Hr, Hl in Hmd. vm_compute in Hmd. congruence.
  - rewrite ord2ymd_regular
      by (try assumption; destruct (leap_of b c e); simpl in Hle; lia).
    rewrite Hmd. reflexivity.
Qed.

(** [toordinal] after [fromordinal] gives the day number back, and
    [fromordinal] only produces dates of the calendar. *)
Lemma ymd2ord_ord2ymd n :
  1 <= n ->
  let '(y, m, d) := ord2ymd n in
  ymd2ord y m d = n /\ 1 <= y /\ 1 <= m <= 12 /\ 1 <= d <= days_in_month y m.
Proof.
  intros Hn.
  destruct (day_digits (n - 1))
    as (a & b & c & e & r & Heq & Ha & Hb & Hc & He & Hr); [lia|].
  replace n with (day_number a b c e r + 1) by lia.
  pose proof (is_leap_digits a b c e Hb Hc He) as Hleap.
  pose proof (days_before_year_digits a b c e Hb Hc He) as Hdby.
  destruct Hr as [Hr|[-> Hl]].
  - rewrite ord2ymd_regular by assumption.
    pose proof (month_day_spec (leap_of b c e) r) as Hs.
    destruct (month_day (leap_of b c e) r) as [m d].
    destruct Hs as (Hm & Hd & Hmd); [destruct (leap_of b c e); simpl; lia|].
    unfold ymd2ord.
    change (days_in_month ?y m) with (dim (is_leap y) m).
    change (days_before_month ?y m) with (dbm (is_leap y) m).
    rewrite Hleap, Hdby. unfold day_number in *. lia.
  - rewrite ord2ymd_leap_end by assumption.
    unfold ymd2ord.
    change (days_in_month ?y 12) with (dim (is_leap y) 12).
    change (days_before_month ?y 12) with (dbm (is_leap y) 12).
    rewrite Hleap, Hdby, Hl. unfold day_number in *.
    vm_compute dbm. vm_compute dim. lia.
Qed.

End CalendarFacts.

(** ** [datetime] plus [timedelta] *)

Module DatetimeFacts.
Import Calendar CalendarFacts.
Local Open Scope Z_scope.

Lemma valid_fields dt :
  valid dt = true <->
  (1 <= year dt <= 9999 /\ 1 <= month dt <= 12 /\
   1 <= day dt <= days_in_month (year dt) (month dt)) /\
  (0 <= hour dt <= 23 /\ 0 <= minute dt <= 59 /\
   0 <= second dt <= 59 /\ 0 <= microsecond dt <= 999999).
Proof.
  unfold valid, check_date_fields, check_time_fields, MINYEAR, MAXYEAR.
  rewrite !andb_true_iff, !Z.leb_le. tauto.
Qed.

Lemma days_before_year_succ y :
  days_before_year (y + 1) = days_before_year y + 365 + b2z (is_leap y).
Proof.
  unfold days_before_year, is_leap, b2z.
  destruct (_ && _) eqn:E.
  - rewrite !andb_true_iff, !orb_true_iff, !negb_true_iff, !Z.eqb_eq,
      !Z.eqb_neq in E.
    Z.div_mod_to_equations. lia.
  - rewrite !andb_false_iff, !orb_false_iff, !negb_false_iff, !Z.eqb_eq,
      !Z.eqb_neq in E.
    Z.div_mod_to_equations. lia.
Qed.

Lemma days_before_year_mono y y' :
  y <= y' -> days_before_year y <= days_before_year y'.
Proof.
  intros H. unfold days_before_year. Z.div_mod_to_equations. lia.
Qed.

Lemma day_of_year_bounds y m d :
  1 <= m <= 12 -> 1 <= d <= days_in_month y m ->
  1 <= days_before_month y m + d <= 365 + b2z (is_leap y).
Proof.
  intros Hm Hd.
  change (days_in_month y m) with (dim (is_leap y) m) in Hd.
  change (days_before_month y m) with (dbm (is_leap y) m).
  pose proof (dbm_dim_le (is_leap y) m Hm). lia.
Qed.

Lemma toordinal_bounds dt :
  valid dt = true -> 1 <= toordinal dt <= MAXORDINAL.
Proof.
  intros [(Hy & Hm & Hd) _]%valid_fields. unfold toordinal, ymd2ord.
  pose proof (day_of_year_bounds _ _ _ Hm Hd) as Hdoy.
  pose proof (days_before_year_succ (year dt)) as Hs.
  pose proof (days_before_year_mono 1 (year dt) ltac:(lia)) as H1.
  pose proof (days_before_year_mono (year dt + 1) 10000 ltac:(lia)) as H2.
  change (days_before_year 1) with 0 in H1.
  change (days_before_year 10000) with 3652059 in H2.
  unfold MAXORDINAL. lia.
Qed.

Lemma year_le_max y m d :
  1 <= m <= 12 -> 1 <= d <= days_in_month y m ->
  ymd2ord y m d <= MAXORDINAL -> y <= MAXYEAR.
Proof.
  intros Hm Hd Hle. unfold ymd2ord, MAXORDINAL, MAXYEAR in *.
  pose proof (day_of_year_bounds _ _ _ Hm Hd) as Hdoy.
  destruct (Z_le_gt_dec y 9999) as [|Hgt]; [assumption|].
  pose proof (days_before_year_mono 10000 y ltac:(lia)) as H1.
  change (days_before_year 10000) with 3652059 in H1. lia.
Qed.

Lemma new_timedelta_spec d s us ms mi h w td :
  new_timedelta d s us ms mi h w = Ok td ->
  timedelta_microseconds td =
    ((d + w * 7) * 86400 + s + mi * 60 + h * 3600) * 1000000
    + us + ms * 1000 /\
  0 <= seconds td < 86400 /\ 0 <= microseconds td < 1000000.
Proof.
  unfold new_timedelta. cbv zeta. destruct (_ <? _); [discriminate|].
  intros [= <-]. unfold timedelta_microseconds. simpl.
  Z.div_mod_to_equations. lia.
Qed.

Lemma new_timedelta_normal d s us :
  -999999999 <= d <= 999999999 -> 0 <= s < 86400 -> 0 <= us < 1000000 ->
  new_timedelta d s us 0 0 0 0 = Ok (mk_timedelta d s us).
Proof.
  intros Hd Hs Hus. unfold new_timedelta. cbv zeta.
  rewrite !Z.mul_0_l, !Z.add_0_r.
  rewrite (Z.div_small us), (Z.mod_small us), Z.add_0_r by lia.
  rewrite (Z.div_small s), (Z.mod_small s), Z.add_0_r by lia.
  destruct (999999999 <? Z.abs d) eqn:E; [apply Z.ltb_lt in E; lia|].
  reflexivity.
Qed.

(** The wall clock of a [datetime] as a [timedelta] since day 0. *)
Lemma datetime_as_timedelta dt :
  valid dt = true ->
  new_timedelta (toordinal dt) (second dt) (microsecond dt) 0
    (minute dt) (hour dt) 0 =
  Ok (mk_timedelta (toordinal dt)
        (hour dt * 3600 + minute dt * 60 + second dt) (microsecond dt)).
Proof.
  intros Hv. pose proof (toordinal_bounds dt Hv) as Hord.
  apply valid_fields in Hv as [_ (Hh & Hmi & Hs & Hus)].
  unfold new_timedelta, MAXORDINAL in *. cbv zeta.
  rewrite !Z.mul_0_l, !Z.add_0_r.
  rewrite (Z.div_small (microsecond dt)), (Z.mod_small (microsecond dt)),
    Z.add_0_r by lia.
  rewrite (Z.div_small (_ + _)), (Z.mod_small (_ + _)), Z.add_0_r by lia.
  destruct (999999999 <? _) eqn:E; [apply Z.ltb_lt in E; lia|].
  do 2 f_equal. lia.
Qed.

(** When the sum is representable it is the base moved by the duration
    on the time line, a value of the calendar again, in the same zone. *)
Lemma datetime_add_spec dt td dt' :
  valid dt = true -> datetime_add dt td = Ok dt' ->
  to_microseconds dt' = to_microseconds dt + timedelta_microseconds td /\
  valid dt' = true /\ tzinfo dt' = tzinfo dt.
Proof.
  intros Hv. unfold datetime_add. rewrite (datetime_as_timedelta dt Hv).
  destruct (timedelta_add _ td) as [delta|] eqn:Hadd; [|discriminate].
  apply new_timedelta_spec in Hadd as (Hus & Hs & Hmicro). simpl in Hus.
  destruct (_ && _) eqn:Hrange; [|discriminate].
  apply andb_true_iff in Hrange as [Hlo%Z.ltb_lt Hhi%Z.leb_le].
  pose proof (ymd2ord_ord2ymd (days delta) ltac:(lia)) as Hord.
  destruct (ord2ymd (days delta)) as [[y m] d].
  destruct Hord as (Hord & Hy & Hm & Hd).
  intros [= <-]. split; [|split; [|reflexivity]].
  - unfold to_microseconds, toordinal in *. simpl. rewrite Hord.
    unfold timedelta_microseconds in *. Z.div_mod_to_equations. lia.
  - apply valid_fields. simpl.
    pose proof (year_le_max y m d Hm Hd ltac:(lia)). unfold MAXYEAR in *.
    repeat split; try lia; Z.div_mod_to_equations; lia.
Qed.

(** The sum is representable as long as it stays within the calendar. *)
Lemma datetime_add_defined dt td :
  valid dt = true ->
  0 <= seconds td < 86400 -> 0 <= microseconds td < 1000000 ->
  -999999999 <= days td <= 0 \/ 0 <= days td <= 999999999 - MAXORDINAL - 1 ->
  let total := to_microseconds dt + timedelta_microseconds td in
  86400000000 <= total < (MAXORDINAL + 1) * 86400000000 ->
  exists dt', datetime_add dt td = Ok dt'.
Proof.
  intros Hv Hs Hus Hd total Htotal.
  pose proof (toordinal_bounds dt Hv) as Hord.
  unfold datetime_add. rewrite (datetime_as_timedelta dt Hv).
  pose proof Hv as [_ (Hh & Hmi & Hsec & Hmicro)]%valid_fields.
  unfold timedelta_add, new_timedelta. simpl. cbv zeta.
  rewrite !Z.add_0_r.
  unfold total, to_microseconds, timedelta_microseconds, MAXORDINAL in *.
  match goal with |- context [999999999 <? ?x] =>
    destruct (999999999 <? x) eqn:E
  end.
  { apply Z.ltb_lt in E. revert E. Z.div_mod_to_equations. lia. }
  simpl.
  match goal with |- context [(0 <? ?x) && (?x <=? 3652059)] =>
    assert (Hr : (0 <? x) && (x <=? 3652059) = true)
  end.
  { apply andb_true_iff. rewrite Z.ltb_lt, Z.leb_le.
    Z.div_mod_to_equations. lia. }
  rewrite Hr. destruct (ord2ymd _) as [[y m] d]. eauto.
Qed.

(** Adding the zero duration gives the base back. *)
Lemma datetime_add_zero dt :
  valid dt = true -> datetime_add dt zero_duration = Ok dt.
Proof.
  intros Hv.
  pose proof (toordinal_bounds dt Hv) as Hord.
  pose proof Hv as [(Hy & Hm & Hd) (Hh & Hmi & Hs & Hus)]%valid_fields.
  unfold datetime_add. rewrite (datetime_as_timedelta dt Hv).
  unfold timedelta_add, zero_duration. simpl. rewrite !Z.add_0_r.
  unfold MAXORDINAL in *.
  rewrite new_timedelta_normal by lia. simpl.
  replace (0 <? toordinal dt) with true by (symmetry; apply Z.ltb_lt; lia).
  replace (toordinal dt <=? 3652059) with true
    by (symmetry; apply Z.leb_le; lia).
  simpl. unfold toordinal. rewrite ord2ymd_ymd2ord by lia.
  destruct dt as [y m d h mi s us tz]; simpl in *. f_equal.
  f_equal; Z.div_mod_to_equations; lia.
Qed.

End DatetimeFacts.

(** ** Splitting and joining strings *)

Module StrFacts.
Import PyStr Words.

Lemma split_not_nil sep s : split sep s <> [].
Proof.
  destruct s as [|c s]; simpl; [discriminate|].
  destruct (Ascii.eqb c sep); [discriminate|].
  destruct (split sep s); discriminate.
Qed.

Lemma split_length sep s : length (split sep s) = S (count sep s).
Proof.
  induction s as [|c s IH]; simpl; [reflexivity|].
  destruct (Ascii.eqb c sep); simpl; [by rewrite IH|].
  destruct (split sep s) eqn:E; simpl in *; [discriminate|exact IH].
Qed.




Lemma join_split sep s : join (String sep "") (split sep s) = s.
Proof.
  induction s as [|c s IH]; simpl; [reflexivity|].
  destruct (Ascii.eqb c sep) eqn:E.
  - apply Ascii.eqb_eq in E as ->.
    pose proof (split_not_nil sep s) as Hne.
    destruct (split sep s) as [|w ws]; [done|].
    change (join (String sep "") ("" :: w :: ws))
      with (String sep (join (String sep "") (w :: ws))).
    by rewrite IH.
  - pose proof (split_not_nil sep s) as Hne.
    destruct (split sep s) as [|w ws]; [done|].
    destruct ws as [|w' ws]; simpl in *; by rewrite <- IH.
Qed.


Lemma words_truthy s : Forall (fun w => truthy w = true) (words s).
Proof.
  unfold words. apply Forall_forall. intros w Hw.
  apply list_elem_of_In, filter_In in Hw. tauto.
Qed.

Lemma join_truthy sep w ws : truthy w = true -> truthy (join sep (w :: ws)) = true.
Proof.
  intros Hw. destruct w as [|c w]; [discriminate|].
  destruct ws; reflexivity.
Qed.


End StrFacts.

(** ** The response builder *)

Module ResponseFacts.
Import PyStr Words StrFacts ResponseModel DatetimeFacts.

Section Builder.
Context {W : World}.



(** What the pattern captures is a non-empty tail of the words. *)
Lemma match_location_suffix ws place :
  match_location ws = Some place ->
  place <> [] /\ exists front, ws = front ++ place.
Proof.
  induction ws as [|w ws IH]; simpl; [discriminate|].
  destruct (_ && _) eqn:E.
  - intros [= ->]. apply andb_true_iff in E as [_ E].
    apply negb_true_iff, bool_decide_eq_false in E.
    split; [exact E|]. by exists [w].
  - intros [Hne [front ->]]%IH. split; [exact Hne|]. by exists (w :: front).
Qed.

(** The extractor never reports an empty place. *)
Lemma extract_location_truthy utterance place :
  extract_location utterance = Some place -> truthy place = true.
Proof.
  unfold extract_location.
  destruct (match_location (words utterance)) as [ws|] eqn:E; [|discriminate].
  intros [= <-]. apply match_location_suffix in E as [Hne [front Hws]].
  pose proof (words_truthy utterance) as Hall. rewrite Hws in Hall.
  apply Forall_app in Hall as [_ Hall].
  destruct ws as [|w ws]; [done|]. apply Forall_cons in Hall as [Hw _].
  by apply join_truthy.
Qed.

Lemma truthy_opt_extract_location utterance :
  truthy_opt (extract_location utterance) = false <->
  extract_location utterance = None.
Proof.
  destruct (extract_location utterance) as [place|] eqn:E; simpl.
  - rewrite (extract_location_truthy _ _ E). split; discriminate.
  - done.
Qed.

(** The requested text is on the object whatever the outcome. *)
Lemma locate_and_compute_requested text duration plain with_location r :
  requested_location
    (snd (locate_and_compute text duration plain with_location r)) =
  extract_location text.
Proof.
  unfold locate_and_compute. simpl.
  destruct (extract_location text) as [q|]; simpl.
  - destruct (resolve q) as [geo|e]; [|reflexivity].
    destruct duration as [d|]; [|reflexivity].
    destruct (compute _ d); [|reflexivity].
    by destruct (timedelta_bool d).
  - destruct duration as [d|]; [|reflexivity].
    destruct (compute _ d); [|reflexivity].
    by destruct (timedelta_bool d).
Qed.

(** The outcome of entry A by cases on the location phrase. *)
Lemma build_current_time_response_cases utterance :
  build_current_time_response utterance new_response =
  match extract_location utterance with
  | None =>
    (Ok (), mk_response (Some (now None)) None None (Some "current-time")
              (Some {[ "time" := Some (nice_time (now None)) ]}))
  | Some q =>
    match geolocate q with
    | None =>
      (Raise LocationNotFoundError,
       mk_response None (Some q) None None None)
    | Some geo =>
      let dt := now (Some (timezone geo)) in
      (Ok (), mk_response (Some dt) (Some q) (Some geo)
                (Some "current-time-location")
                (Some {[ "time" := Some (nice_time dt);
                         "location" := Some (display_location geo) ]}))
    end
  end.
Proof.
  unfold build_current_time_response, locate_and_compute, resolve. simpl.
  destruct (extract_location utterance) as [q|]; simpl; [|reflexivity].
  destruct (geolocate q); reflexivity.
Qed.

(** Only the zero duration is falsy. *)
Lemma timedelta_bool_false d : timedelta_bool d = false -> d = zero_duration.
Proof.
  destruct d as [days seconds microseconds]. unfold timedelta_bool. simpl.
  intros H. apply negb_false_iff in H.
  apply andb_true_iff in H as [[Hd Hs]%andb_true_iff Hus].
  apply Z.eqb_eq in Hd, Hs, Hus. by subst.
Qed.

(** The outcome of entry B by cases on the location phrase of the
    remainder, the lookup, the addition and the duration. *)
Lemma build_future_time_response_cases utterance :
  build_future_time_response utterance new_response =
  let remainder := fst (extract_duration utterance) in
  let d := snd (extract_duration utterance) in
  match extract_location remainder with
  | None =>
    match compute (now None) d with
    | Raise e => (Raise e, new_response)
    | Ok dt =>
      if timedelta_bool d then
        (Ok (), mk_response (Some dt) None None (Some "future-time")
                  (Some {[ "time" := Some (nice_time dt) ]}))
      else (Ok (), new_response)
    end
  | Some q =>
    match geolocate q with
    | None =>
      (Raise LocationNotFoundError, mk_response None (Some q) None None None)
    | Some geo =>
      match compute (now (Some (timezone geo))) d with
      | Raise e => (Raise e, mk_response None (Some q) None None None)
      | Ok dt =>
        if timedelta_bool d then
          (Ok (), mk_response (Some dt) (Some q) (Some geo)
                    (Some "future-time-location")
                    (Some {[ "time" := Some (nice_time dt);
                             "location" := Some (display_location geo) ]}))
        else (Ok (), mk_response None (Some q) None None None)
      end
    end
  end.
Proof.
  unfold build_future_time_response, locate_and_compute, resolve.
  destruct (extract_duration utterance) as [remainder d]. simpl.
  destruct (extract_location remainder) as [q|]; simpl.
  - destruct (geolocate q) as [geo|]; [|reflexivity].
    destruct (compute _ d); [|reflexivity]. by destruct (timedelta_bool d).
  - destruct (compute _ d); [|reflexivity]. by destruct (timedelta_bool d).
Qed.


(** Entry B without duration, for a place that is found or not named. *)
Lemma build_future_time_response_zero utterance base :
  timedelta_bool (snd (extract_duration utterance)) = false ->
  base_time (fst (extract_duration utterance)) = Some base ->
  valid base = true ->
  build_future_time_response utterance new_response =
    (Ok (),
     mk_response None (extract_location (fst (extract_duration utterance)))
       None None None).
Proof.
  intros Hd Hbase Hv. rewrite build_future_time_response_cases. cbv zeta.
  rewrite (timedelta_bool_false _ Hd). unfold base_time in Hbase.
  destruct (extract_location _) as [q|].
  - destruct (geolocate q) as [geo|]; [|discriminate].
    injection Hbase as <-. unfold compute.
    by rewrite (datetime_add_zero _ Hv).
  - injection Hbase as <-. unfold compute.
    by rewrite (datetime_add_zero _ Hv).
Qed.

End Builder.

(** C7: building a current-time response from the empty utterance does
    not raise and takes the no-location branch: no place is extracted,
    the response carries local [now] with the "current-time" template and
    only the formatted time, and the outcome is the same whatever the
    geolocation capability would answer, so no lookup takes part in it. *)
Theorem build_current_time_response_empty (W : World) :
  @extract_location W "" = None /\
  @build_current_time_response W "" new_response =
    (Ok (), mk_response (Some (now None)) None None (Some "current-time")
              (Some {[ "time" := Some (nice_time (now None)) ]})) /\
  forall lookup,
    @build_current_time_response (with_geolocate lookup W) "" new_response =
    @build_current_time_response W "" new_response.
Proof.
  split; [reflexivity|]. split; [reflexivity|]. intros lookup. reflexivity.
Qed.

(** C8: the Time Computer's [compute] with the zero duration returns the
    base date-time unchanged, for every date-time of the calendar. *)
Theorem compute_zero_duration (base : datetime) :
  valid base = true -> compute base zero_duration = Ok base.
Proof. intros Hv. unfold compute. by apply datetime_add_zero. Qed.

Lemma compute_zero_duration_witness :
  valid (mk_datetime 2024 2 29 23 59 59 999999 (Some "Asia/Tokyo")) = true /\
  compute (mk_datetime 2024 2 29 23 59 59 999999 (Some "Asia/Tokyo"))
    zero_duration =
  Ok (mk_datetime 2024 2 29 23 59 59 999999 (Some "Asia/Tokyo")).
Proof.
  split; [reflexivity|]. apply compute_zero_duration. reflexivity.
Defined.

End ResponseFacts.

(** ** Duration stripping before location extraction *)

Module LocationOrder.
Import PyStr Words StrFacts ResponseModel ResponseFacts.






End LocationOrder.

(** ** The request handlers *)

Module HandlerFacts.
Import PyStr ResponseModel ResponseFacts Skill.

(** Run the statements at the head of the goal on the state. *)
Ltac run :=
  cbv beta iota zeta delta
    [bind ret raise gets modify emit lift try_except speak_dialog
     cache_dialog get_active remove_active gui_set cancel_scheduled_event
     schedule_event _handle_location_not_found set_effects set_gui
     set_scheduled set_displayed_time set_display_active];
  simpl.

Section Handlers.
Context {W : World}.

Lemma handle_current_time_not_found request utterance q s :
  dict_get "utterance" (data request) = Some utterance ->
  extract_location utterance = Some q -> geolocate q = None ->
  _handle_current_time request s =
    (Ok (),
     set_effects
       (effects s ++ [request_log request; not_found_call q]) s).
Proof.
  intros Hu Hq Hgeo. unfold _handle_current_time.
  rewrite Hu, build_current_time_response_cases, Hq, Hgeo.
  run. by rewrite <- app_assoc.
Qed.

Lemma handle_future_time_not_found request utterance q s :
  dict_get "utterance" (data request) = Some utterance ->
  extract_location (fst (extract_duration utterance)) = Some q ->
  geolocate q = None ->
  build_future_time_response utterance new_response =
    (Raise LocationNotFoundError, mk_response None (Some q) None None None) /\
  _handle_future_time request s =
    (Ok (), set_effects (effects s ++ [not_found_call q]) s).
Proof.
  intros Hu Hq Hgeo.
  assert (Hb : build_future_time_response utterance new_response =
               (Raise LocationNotFoundError,
                mk_response None (Some q) None None None)).
  { rewrite build_future_time_response_cases. cbv zeta. by rewrite Hq, Hgeo. }
  split; [exact Hb|].
  unfold _handle_future_time. rewrite Hu, Hb. by run.
Qed.

Lemma handle_future_time_zero request utterance base s :
  dict_get "utterance" (data request) = Some utterance ->
  timedelta_bool (snd (extract_duration utterance)) = false ->
  base_time (fst (extract_duration utterance)) = Some base ->
  valid base = true ->
  _handle_future_time request s = _handle_current_time request s.
Proof.
  intros Hu Hd Hbase Hv. unfold _handle_future_time.
  by rewrite Hu, (build_future_time_response_zero _ _ Hd Hbase Hv).
Qed.

End Handlers.

(** C1, as the builder has it: when the Duration Extractor finds no
    offset in the utterance of a future-time request (it returns the zero
    duration) and the remainder names no place or one that the resolver
    finds, building the future-time response returns normally with
    [date_time] unset, and the handler does for the request exactly what
    the current-time handler does for it.  The clock reading taken for
    the place is a date-time of the calendar. *)
Theorem future_time_without_duration_falls_back (W : World)
    (request : Message) (utterance : string) (base : datetime)
    (s : TimeSkill) :
  dict_get "utterance" (data request) = Some utterance ->
  timedelta_bool (snd (extract_duration utterance)) = false ->
  base_time (fst (extract_duration utterance)) = Some base ->
  valid base = true ->
  (exists response,
     build_future_time_response utterance new_response = (Ok (), response) /\
     date_time response = None) /\
  _handle_future_time request s = _handle_current_time request s.
Proof.
  intros Hu Hd Hbase Hv. split.
  - eexists. split; [by apply build_future_time_response_zero with base|].
    reflexivity.
  - by apply handle_future_time_zero with utterance base.
Qed.

Lemma future_time_without_duration_falls_back_witness :
  let W := English.world None in
  let request := English.request "what time will it be" in
  let s := English.skill MARK_II true false in
  fst (@build_future_time_response W "what time will it be" new_response)
    = Ok () /\
  @_handle_future_time W request s = @_handle_current_time W request s.
Proof.
  intros W request s.
  destruct (future_time_without_duration_falls_back W request
              "what time will it be"
              (mk_datetime 2021 7 30 12 34 56 789000 (Some "UTC")) s)
    as [[r [Hb _]] Hh].
  - reflexivity.
  - reflexivity.
  - reflexivity.
  - reflexivity.
  - split; [by rewrite Hb|exact Hh].
Defined.

(** C1 as the sentence has it fails on an utterance without duration
    that names a place the resolver does not find: for "what time will it
    be in wakanda" the build raises [LocationNotFoundError], and the
    handler speaks the location-not-found dialog where the current-time
    handler would log the request first. *)
Lemma future_time_without_duration_not_found :
  ~ zero_duration_always_falls_back (English.world None).
Proof.
  intros H.
  destruct (H (English.request "what time will it be in wakanda")
              "what time will it be in wakanda"
              (English.skill MARK_II true false))
    as [[response [Hb _]] _].
  - reflexivity.
  - reflexivity.
  - vm_compute in Hb. discriminate.
Qed.

(** C2: when a location phrase was extracted and the geolocation lookup
    fails, the builder raises [LocationNotFoundError] with the requested
    text already on the response, and the handler returns normally having
    spoken the location-not-found dialog, and nothing else, with that
    text as the [location] substitution.  This holds for the current-time
    entry, where the phrase is extracted from the utterance, and for the
    future-time entry, where it is extracted from the remainder of the
    Duration Extractor, with and without a duration. *)
Theorem unresolved_location_is_reported (W : World)
    (request : Message) (utterance q : string) (s : TimeSkill) :
  dict_get "utterance" (data request) = Some utterance ->
  geolocate q = None ->
  (extract_location utterance = Some q ->
   (exists response,
      build_current_time_response utterance new_response =
        (Raise LocationNotFoundError, response) /\
      requested_location response = Some q) /\
   _handle_current_time request s =
     (Ok (),
      set_effects (effects s ++ [request_log request; not_found_call q]) s)) /\
  (extract_location (fst (extract_duration utterance)) = Some q ->
   (exists response,
      build_future_time_response utterance new_response =
        (Raise LocationNotFoundError, response) /\
      requested_location response = Some q) /\
   _handle_future_time request s =
     (Ok (), set_effects (effects s ++ [not_found_call q]) s)).
Proof.
  intros Hu Hgeo. split.
  - intros Hq. split.
    + eexists. rewrite build_current_time_response_cases, Hq, Hgeo.
      split; reflexivity.
    + by apply handle_current_time_not_found with utterance.
  - intros Hq.
    destruct (handle_future_time_not_found request utterance q s Hu Hq Hgeo)
      as [Hb Hh].
    split; [by eexists|exact Hh].
Qed.

Lemma unresolved_location_is_reported_witness :
  let W := English.world None in
  let s := English.skill MARK_I false true in
  let not_found :=
    [(Some "location-not-found",
      Some ({[ "location" := Some "wakanda" ]} : DialogData), None, false)] in
  speech (snd (@_handle_current_time W
                 (English.request "what time is it in wakanda") s)) =
    not_found /\
  speech (snd (@_handle_future_time W
                 (English.request
                    "what time will it be 3 hours from now in wakanda") s)) =
    not_found /\
  speech (snd (@_handle_future_time W
                 (English.request "what time will it be in wakanda") s)) =
    not_found.
Proof.
  intros W s not_found. split; [|split].
  - destruct (unresolved_location_is_reported W
                (English.request "what time is it in wakanda")
                "what time is it in wakanda" "wakanda" s) as [H _];
      [reflexivity|reflexivity|].
    destruct H as (_ & ->); reflexivity.
  - destruct (unresolved_location_is_reported W
                (English.request
                   "what time will it be 3 hours from now in wakanda")
                "what time will it be 3 hours from now in wakanda" "wakanda" s)
      as [_ H]; [reflexivity|reflexivity|].
    destruct H as (_ & ->); reflexivity.
  - destruct (unresolved_location_is_reported W
                (English.request "what time will it be in wakanda")
                "what time will it be in wakanda" "wakanda" s)
      as [_ H]; [reflexivity|reflexivity|].
    destruct H as (_ & ->); reflexivity.
Defined.

(** *** Frames: what a statement leaves alone *)

Section Frames.
Context {A B X : Type} (f : TimeSkill -> X).

Lemma preserves_ret (a : A) : preserves f (ret a).
Proof. by intros s. Qed.

Lemma preserves_raise e : preserves f (raise (A:=A) e).
Proof. by intros s. Qed.

Lemma preserves_gets (g : TimeSkill -> A) : preserves f (gets g).
Proof. by intros s. Qed.

Lemma preserves_lift (r : result A) : preserves f (lift r).
Proof. by destruct r. Qed.

Lemma preserves_modify g : (forall s, f (g s) = f s) -> preserves f (modify g).
Proof. intros H s. apply H. Qed.

Lemma preserves_bind (c : M A) (k : A -> M B) :
  preserves f c -> (forall a, preserves f (k a)) -> preserves f (bind c k).
Proof.
  intros Hc Hk s. unfold bind. specialize (Hc s).
  destruct (c s) as [[a|e] s1]; simpl in *; [|exact Hc].
  by rewrite Hk.
Qed.

Lemma preserves_try_except (c : M A) (h : exn -> M A) :
  preserves f c -> (forall e, preserves f (h e)) ->
  preserves f (try_except c h).
Proof.
  intros Hc Hh s. unfold try_except. specialize (Hc s).
  destruct (c s) as [[a|e] s1]; simpl in *; [exact Hc|].
  by rewrite Hh.
Qed.

Lemma returns_ret (a : A) : returns (ret a).
Proof. by intros s. Qed.

Lemma returns_gets (g : TimeSkill -> A) : returns (gets g).
Proof. by intros s. Qed.

Lemma returns_bind (c : M A) (k : A -> M B) :
  returns c -> (forall a, returns (k a)) -> returns (bind c k).
Proof.
  intros Hc Hk s. unfold bind. specialize (Hc s).
  destruct (c s) as [[a|e] s1]; simpl in *; [apply Hk|discriminate].
Qed.

Lemma returns_try_except (c : M A) (h : exn -> M A) :
  (forall e, returns (h e)) -> returns (try_except c h).
Proof.
  intros Hh s. unfold try_except.
  destruct (c s) as [[a|e] s1]; simpl; [reflexivity|apply Hh].
Qed.

End Frames.

Lemma returns_modify g : returns (modify g).
Proof. by intros s. Qed.

Lemma returns_emit e : returns (emit e).
Proof. by intros s. Qed.

Lemma run_bind_ok {A B} (c : M A) (k : A -> M B) s a s1 :
  c s = (Ok a, s1) -> bind c k s = k a s1.
Proof. unfold bind. by intros ->. Qed.

Lemma run_bind_raise {A B} (c : M A) (k : A -> M B) s e s1 :
  c s = (Raise e, s1) -> bind c k s = (Raise e, s1).
Proof. unfold bind. by intros ->. Qed.

Lemma returns_run {A} (c : M A) s :
  returns c -> exists a s1, c s = (Ok a, s1).
Proof.
  intros Hc. specialize (Hc s). destruct (c s) as [[a|e] s1]; [|discriminate].
  by exists a, s1.
Qed.

Lemma speech_emit e s :
  speech (snd (emit e s)) =
  speech s ++
  match e with
  | SpeakDialog name data cache_key wait => [(name, data, cache_key, wait)]
  | _ => []
  end.
Proof.
  unfold emit, modify, speech. simpl. rewrite omap_app.
  by destruct e.
Qed.

Lemma preserves_speech_emit e : is_speak e = false -> preserves speech (emit e).
Proof.
  intros He s. rewrite speech_emit. destruct e; try discriminate;
    by rewrite app_nil_r.
Qed.

Create HintDb frame.

#[local] Hint Resolve preserves_ret preserves_raise preserves_gets
  preserves_lift preserves_bind preserves_try_except
  returns_ret returns_gets returns_bind returns_try_except
  returns_modify returns_emit : frame.
#[local] Hint Extern 1 (preserves speech (emit _)) =>
  apply preserves_speech_emit; reflexivity : frame.
#[local] Hint Extern 1 (preserves _ (modify _)) =>
  apply preserves_modify; reflexivity : frame.
#[local] Hint Extern 2 (preserves _ (if ?b then _ else _)) =>
  destruct b : frame.
#[local] Hint Extern 2 (returns (if ?b then _ else _)) => destruct b : frame.
#[local] Hint Extern 3 (preserves _ (match ?x with _ => _ end)) =>
  destruct x : frame.
#[local] Hint Extern 3 (returns (match ?x with _ => _ end)) =>
  destruct x : frame.

Section Display.
Context {W : World}.

Lemma remove_active_speech : preserves speech remove_active.
Proof. unfold remove_active. auto 10 with frame. Qed.

Lemma remove_active_returns : returns remove_active.
Proof. unfold remove_active. auto 10 with frame. Qed.

Lemma display_time_speech response : preserves speech (_display_time response).
Proof.
  unfold _display_time, _display_gui, _display_mark_i, _is_alarm_set, gui_set.
  auto 30 with frame.
Qed.

Lemma clear_mark_i_display_speech delay :
  preserves speech (_clear_mark_i_display delay).
Proof.
  unfold _clear_mark_i_display. pose proof remove_active_speech.
  auto 30 with frame.
Qed.

Lemma clear_mark_i_display_returns delay :
  returns (_clear_mark_i_display delay).
Proof.
  unfold _clear_mark_i_display. pose proof remove_active_returns.
  auto 30 with frame.
Qed.

Lemma cache_current_time_tts_speech : preserves speech _cache_current_time_tts.
Proof.
  unfold _cache_current_time_tts, cancel_scheduled_event, schedule_event,
    cache_dialog.
  auto 30 with frame.
Qed.

Lemma cache_current_time_tts_returns : returns _cache_current_time_tts.
Proof. unfold _cache_current_time_tts. auto with frame. Qed.

(** No handler assigns the cache key. *)
Lemma handle_current_time_key request :
  preserves _current_time_cache_key (_handle_current_time request).
Proof.
  assert (forall e, preserves _current_time_cache_key (emit e))
    by (intros e; by apply preserves_modify).
  unfold _handle_current_time, _handle_location_not_found, _respond,
    _display_time, _display_gui, _display_mark_i, _is_alarm_set,
    _clear_mark_i_display, remove_active, speak_dialog,
    _cache_current_time_tts, cache_dialog, cancel_scheduled_event,
    schedule_event, gui_set.
  auto 40 with frame.
Qed.

End Display.

Lemma bind_assoc {A B C} (c : M A) (k : A -> M B) (k' : B -> M C) s :
  bind (bind c k) k' s = bind c (fun a => bind (k a) k') s.
Proof. unfold bind. by destruct (c s) as [[a|e] s1]. Qed.

Section CacheKey.
Context {W : World}.

(** The answer of the current-time handler once the response is built:
    one speech call unless the display raised before it. *)
Lemma respond_then_cache_speech response cache_key s :
  let run := (_respond response cache_key ;; _cache_current_time_tts) s in
  speech (snd run) =
  speech s ++
  (if is_ok (fst run)
   then [(dialog_name response, dialog_data response, cache_key, true)]
   else []).
Proof.
  cbv zeta. unfold _respond. rewrite bind_assoc.
  pose proof (display_time_speech response s) as Hd.
  destruct (_display_time response s) as [[[]|e] s1] eqn:E1; simpl in Hd.
  - rewrite (run_bind_ok _ _ _ _ _ E1), bind_assoc.
    unfold speak_dialog.
    rewrite (run_bind_ok _ _ s1 () (snd (emit (SpeakDialog (dialog_name response)
               (dialog_data response) cache_key true) s1))) by reflexivity.
    pose proof (speech_emit (SpeakDialog (dialog_name response)
                  (dialog_data response) cache_key true) s1) as Hs.
    set (s2 := snd (emit _ s1)) in *. clearbody s2.
    set (rest := (mark_i <- gets (platform_is MARK_I) ;;
                  if mark_i : bool then _clear_mark_i_display TEN_SECONDS
                  else connected <- gets gui_connected ;;
                       if connected : bool then emit GuiRelease else ret ())).
    assert (Hsp : preserves speech (rest ;; _cache_current_time_tts)).
    { unfold rest. pose proof clear_mark_i_display_speech.
      pose proof cache_current_time_tts_speech. auto 20 with frame. }
    assert (Hret : returns (rest ;; _cache_current_time_tts)).
    { unfold rest. pose proof clear_mark_i_display_returns.
      pose proof cache_current_time_tts_returns. auto 20 with frame. }
    specialize (Hsp s2). specialize (Hret s2).
    destruct ((rest ;; _cache_current_time_tts) s2) as [[[]|e] s3];
      [|discriminate].
    simpl in *. by rewrite Hsp, Hs, Hd.
  - rewrite (run_bind_raise _ _ _ _ _ E1). simpl. by rewrite app_nil_r.
Qed.

End CacheKey.

(** The speech call of an answered current-time request. *)
Lemma handle_current_time_speech (W : World)
    (request : Message) (utterance : string) (response : Response)
    (s : TimeSkill) :
  dict_get "utterance" (data request) = Some utterance ->
  build_current_time_response utterance new_response = (Ok (), response) ->
  let '(outcome, s') := _handle_current_time request s in
  exists cache_key,
    speech s' =
      speech s ++
      (if is_ok outcome
       then [(dialog_name response, dialog_data response, cache_key, true)]
       else []) /\
    (cache_key = Some (_current_time_cache_key s) <->
     extract_location utterance = None) /\
    (cache_key = None <-> extract_location utterance <> None) /\
    (cache_key = Some (_current_time_cache_key s) ->
     dialog_name response = Some "current-time").
Proof.
  intros Hu Hb.
  assert (Hname : extract_location utterance = None ->
                  dialog_name response = Some "current-time").
  { intros Hq. rewrite build_current_time_response_cases, Hq in Hb.
    by injection Hb as <-. }
  assert (Hreq : requested_location response = extract_location utterance).
  { pose proof (locate_and_compute_requested utterance None
                  "current-time" "current-time-location" new_response) as H.
    unfold build_current_time_response in Hb. by rewrite Hb in H. }
  unfold _handle_current_time. rewrite Hu, Hb.
  set (s0 := snd (emit (request_log request) s)).
  assert (Hs0 : speech s0 = speech s) by (by apply preserves_speech_emit).
  rewrite (run_bind_ok _ _ s () s0) by reflexivity.
  rewrite (run_bind_ok _ _ s0 (_current_time_cache_key s) s0) by reflexivity.
  pose proof (respond_then_cache_speech response
                (if negb (truthy_opt (requested_location response))
                 then Some (_current_time_cache_key s) else None) s0) as Hsp.
  cbv zeta in Hsp.
  destruct ((_respond response _ ;; _cache_current_time_tts) s0)
    as [outcome s'].
  eexists. split; [by rewrite <- Hs0|].
  rewrite Hreq.
  destruct (extract_location utterance) as [q|] eqn:Hq.
  - assert (truthy_opt (Some q) = true) as ->
      by (simpl; by eapply extract_location_truthy).
    simpl. repeat split; done.
  - simpl. repeat split; try done. intros _. by apply Hname.
Qed.


(** C6: when a live current-time request is answered (the response was
    built), the handler makes one speech call, unless the display raised
    before it, and that call carries the current-time cache key exactly
    when the utterance requested no location; with a location the call
    carries no cache key.  A call with the key therefore speaks the
    no-location "current-time" template, and the key is the same after
    the request as before it. *)
Theorem current_time_cache_key_iff_no_location (W : World)
    (request : Message) (utterance : string) (response : Response)
    (s : TimeSkill) :
  dict_get "utterance" (data request) = Some utterance ->
  build_current_time_response utterance new_response = (Ok (), response) ->
  let '(outcome, s') := _handle_current_time request s in
  (exists cache_key,
     speech s' =
       speech s ++
       (if is_ok outcome
        then [(dialog_name response, dialog_data response, cache_key, true)]
        else []) /\
     (cache_key = Some (_current_time_cache_key s) <->
      extract_location utterance = None) /\
     (cache_key = None <-> extract_location utterance <> None) /\
     (cache_key = Some (_current_time_cache_key s) ->
      dialog_name response = Some "current-time")) /\
  _current_time_cache_key s' = _current_time_cache_key s.
Proof.
  intros Hu Hb.
  pose proof (handle_current_time_speech W request utterance response s
                Hu Hb) as Hspeech.
  pose proof (handle_current_time_key request s) as Hkey.
  destruct (_handle_current_time request s) as [outcome s'].
  split; [exact Hspeech|exact Hkey].
Qed.

Lemma current_time_cache_key_iff_no_location_witness :
  let W := English.world None in
  let s := English.skill MARK_II true false in
  let utterance := "what time is it in tokyo" in
  let response :=
    snd (@build_current_time_response W utterance new_response) in
  let '(outcome, s') :=
    @_handle_current_time W (English.request utterance) s in
  (exists cache_key,
     speech s' =
       speech s ++
       (if is_ok outcome
        then [(dialog_name response, dialog_data response, cache_key, true)]
        else []) /\
     (cache_key = Some (_current_time_cache_key s) <->
      @extract_location W utterance = None) /\
     (cache_key = None <-> @extract_location W utterance <> None) /\
     (cache_key = Some (_current_time_cache_key s) ->
      dialog_name response = Some "current-time")) /\
  _current_time_cache_key s' = _current_time_cache_key s.
Proof.
  intros W s utterance response.
  apply (current_time_cache_key_iff_no_location W
           (English.request utterance) utterance response s);
    reflexivity.
Defined.

(** *** The pre-cache task *)

Section CacheTask.
Context {W : World}.
Import Calendar CalendarFacts DatetimeFacts.
Local Open Scope Z_scope.

Lemma next_minute_of_spec (now : datetime) :
  valid now = true -> last_minute now = false ->
  exists next,
    next_minute_of now = Ok next /\
    to_microseconds next =
      to_microseconds now - (second now * 1000000 + microsecond now)
      + 60000000 /\
    second next = 0 /\ microsecond next = 0 /\
    valid next = true /\ tzinfo next = None.
Proof.
  intros Hv Hlast.
  pose proof Hv as [(Hy & Hm & Hd) (Hh & Hmi & Hs & Hus)]%valid_fields.
  set (truncated :=
         mk_datetime (year now) (month now) (day now) (hour now)
           (minute now) 0 0 None).
  assert (Hvt : valid truncated = true)
    by (apply valid_fields; simpl; lia).
  assert (Htrunc : to_microseconds truncated =
            to_microseconds now - (second now * 1000000 + microsecond now))
    by (unfold to_microseconds, toordinal; simpl; lia).
  pose proof (toordinal_bounds truncated Hvt) as Hord.
  assert (Hroom : toordinal truncated = MAXORDINAL ->
                  hour now * 60 + minute now < 23 * 60 + 59).
  { intros Hmax. unfold toordinal in Hmax. simpl in Hmax.
    pose proof (ord2ymd_ymd2ord (year now) (month now) (day now)
                  ltac:(lia) Hm Hd) as Hback.
    rewrite Hmax in Hback.
    change (ord2ymd MAXORDINAL) with (9999, 12, 31) in Hback.
    injection Hback as Hy' Hm' Hd'.
    unfold last_minute, MAXYEAR in Hlast.
    rewrite <- Hy', <- Hm', <- Hd' in Hlast. simpl in Hlast.
    apply andb_false_iff in Hlast as [Hlast|Hlast];
      apply Z.eqb_neq in Hlast; lia. }
  destruct (datetime_add_defined truncated (mk_timedelta 0 60 0) Hvt)
    as [next Hnext]; simpl; try lia.
  { unfold timedelta_microseconds, to_microseconds, MAXORDINAL in *.
    simpl in *. lia. }
  exists next.
  pose proof (datetime_add_spec _ _ _ Hvt Hnext) as (Hus' & Hv' & Htz).
  unfold timedelta_microseconds in Hus'. simpl in Hus'.
  pose proof Hv' as [_ (Hh' & Hmi' & Hs' & Hmicro')]%valid_fields.
  split; [|split; [lia|]].
  - unfold next_minute_of, new_datetime.
    replace (check_date_fields _ _ _) with true
      by (symmetry; unfold valid in Hvt; simpl in Hvt;
          by apply andb_true_iff in Hvt as [? _]).
    replace (check_time_fields _ _ _ _) with true
      by (symmetry; unfold valid in Hvt; simpl in Hvt;
          by apply andb_true_iff in Hvt as [_ ?]).
    simpl. exact Hnext.
  - rewrite Htrunc in Hus'.
    unfold to_microseconds in Hus'.
    repeat split; try assumption; lia.
Qed.

Lemma pending_rescheduled name when (l : list (string * datetime)) s :
  pending name
    (set_scheduled
       (List.filter (fun ev => negb (String.eqb (fst ev) name)) l
        ++ [(name, when)]) s) = [when].
Proof.
  unfold pending. simpl. rewrite List.filter_app. simpl.
  rewrite String.eqb_refl. simpl.
  replace (List.filter _ (List.filter _ l)) with (@nil (string * datetime));
    [reflexivity|].
  induction l as [|ev l IH]; simpl; [reflexivity|].
  destruct (String.eqb (fst ev) name) eqn:E; simpl; [exact IH|].
  by rewrite E.
Qed.

Lemma cache_task_shape : _cache_current_time_tts = cache_task build_and_cache.
Proof. reflexivity. Qed.

(** The task with any computation after the re-arming: the computation
    runs on the re-armed skill, and when it raises the exception is
    logged and the task returns. *)
Lemma cache_task_run (work : M ()) (next : datetime) (s : TimeSkill) :
  next_minute_of datetime_now = Ok next ->
  cache_task work s =
    match work (rearmed next s) with
    | (Ok _, s2) => (Ok (), s2)
    | (Raise e, s2) =>
      (Ok (),
       set_effects
         (effects s2 ++ [LogException "Error while caching TTS" e]) s2)
    end.
Proof.
  intros Hnext. unfold cache_task, rearmed. rewrite Hnext. run.
  match goal with |- context [work ?s1] =>
    by destruct (work s1) as [[[]|e] s2]
  end.
Qed.

(** Whatever runs after the re-arming, and whether it raises or not, the
    task returns and one run is pending, as long as that computation
    leaves the schedule alone. *)
Lemma rearm_survives_failure (work : M ()) (next : datetime) (s : TimeSkill) :
  next_minute_of datetime_now = Ok next ->
  preserves scheduled work ->
  let '(outcome, s') := cache_task work s in
  outcome = Ok () /\ pending "CacheTTS" s' = [next].
Proof.
  intros Hnext Hwork. rewrite (cache_task_run work next s Hnext).
  specialize (Hwork (rearmed next s)).
  assert (Hp : forall s2, scheduled s2 = scheduled (rearmed next s) ->
                          pending "CacheTTS" s2 = [next]).
  { intros s2 Hs2. unfold pending. rewrite Hs2.
    apply (pending_rescheduled "CacheTTS" next (scheduled s) s). }
  destruct (work (rearmed next s)) as [[[]|e] s2]; simpl in *.
  - split; [reflexivity|]. by apply Hp.
  - split; [reflexivity|]. by apply Hp.
Qed.

Lemma build_and_cache_schedule : preserves scheduled build_and_cache.
Proof.
  unfold build_and_cache, cache_dialog.
  assert (forall e, preserves scheduled (emit e))
    by (intros e; by apply preserves_modify).
  auto 20 with frame.
Qed.

Lemma cache_current_time_tts_run (next : datetime) (s : TimeSkill) :
  next_minute_of datetime_now = Ok next ->
  let '(outcome, s') := _cache_current_time_tts s in
  outcome = Ok () /\
  effects s' =
    effects s ++
    CacheDialog (Some "current-time")
      (Some {[ "time" := Some (nice_time (now None)) ]})
      (_current_time_cache_key s)
    :: match cache_dialog_error with
       | Some e => [LogException "Error while caching TTS" e]
       | None => []
       end.
Proof.
  intros Hnext. unfold _cache_current_time_tts.
  rewrite Hnext, build_current_time_response_cases.
  change (extract_location "") with (@None string).
  run. destruct cache_dialog_error as [e|]; run.
  - by rewrite <- app_assoc.
  - done.
Qed.

End CacheTask.

(** C4: in the pre-cache task the pending run is cancelled and the next
    one scheduled before the response is computed.  So one invocation
    returns normally with exactly one run pending, at a time after the
    clock reading, also when the computation raises: the exception is
    logged and goes no further.  This is shown for any computation in the
    place of building and caching that leaves the schedule alone, and
    for the method itself, whose computation is one of them.  The clock is
    read as a [datetime] before the last minute the type can hold. *)
Theorem cache_task_rearmed_before_failure (W : World) (s : TimeSkill) :
  valid datetime_now = true -> Calendar.last_minute datetime_now = false ->
  exists next,
    (to_microseconds datetime_now < to_microseconds next)%Z /\
    (forall work : M (), preserves scheduled work ->
     let '(outcome, s') := cache_task work s in
     outcome = Ok () /\ pending "CacheTTS" s' = [next] /\
     forall e s2,
       work (rearmed next s) = (Raise e, s2) ->
       effects s' =
         effects s2 ++ [LogException "Error while caching TTS" e]) /\
    _cache_current_time_tts = cache_task build_and_cache /\
    preserves scheduled build_and_cache /\
    (let '(outcome, s') := _cache_current_time_tts s in
     outcome = Ok () /\ pending "CacheTTS" s' = [next] /\
     effects s' =
       effects s ++
       CacheDialog (Some "current-time")
         (Some {[ "time" := Some (nice_time (now None)) ]})
         (_current_time_cache_key s)
       :: match cache_dialog_error with
          | Some e => [LogException "Error while caching TTS" e]
          | None => []
          end).
Proof.
  intros Hv Hlast.
  destruct (next_minute_of_spec datetime_now Hv Hlast)
    as (next & Hnext & Hus & _ & _ & _ & _).
  pose proof Hv as [_ (_ & _ & Hs & Hmicro)]%DatetimeFacts.valid_fields.
  exists next. split; [lia|]. split; [|split; [reflexivity|split]].
  - intros work Hwork.
    pose proof (rearm_survives_failure work next s Hnext Hwork) as Hgen.
    pose proof (cache_task_run work next s Hnext) as Hrun.
    destruct (cache_task work s) as [outcome s'].
    destruct Hgen as [Hok Hp]. split; [exact Hok|]. split; [exact Hp|].
    intros e s2 Hraise. rewrite Hraise in Hrun. by injection Hrun as _ ->.
  - apply build_and_cache_schedule.
  - pose proof (cache_current_time_tts_run next s Hnext) as Hrun.
    pose proof (rearm_survives_failure build_and_cache next s Hnext
                  build_and_cache_schedule) as Hgen.
    rewrite <- cache_task_shape in Hgen.
    destruct (_cache_current_time_tts s) as [outcome s'].
    destruct Hrun as [Hok Heff]. split; [exact Hok|]. split; [|exact Heff].
    apply Hgen.
Qed.

Lemma cache_task_rearmed_before_failure_witness :
  let W := English.world (Some (OtherException "TTSError")) in
  let s := English.skill MARK_II true false in
  @_cache_current_time_tts W s =
    (Ok (),
     set_effects
       [CacheDialog (Some "current-time")
          (Some {[ "time" := Some "12:34" ]})
          "mycroft-date-time.current-time";
        LogException "Error while caching TTS" (OtherException "TTSError")]
       (set_scheduled
          [("CacheTTS", mk_datetime 2021 7 30 12 35 0 0 None)] s)) /\
  exists next,
    pending "CacheTTS" (snd (@_cache_current_time_tts W s)) = [next].
Proof.
  intros W s. split; [reflexivity|].
  destruct (cache_task_rearmed_before_failure W s)
    as (next & _ & _ & _ & _ & H); [reflexivity|reflexivity|].
  exists next. destruct (_cache_current_time_tts s) as [outcome s'].
  by destruct H as (_ & H & _).
Defined.

(** C5: an invocation of the pre-cache task leaves one run pending, at
    the clock reading with seconds and microseconds dropped plus one
    minute: the first whole minute after the reading.  The clock is read
    as a [datetime] before the last minute the type can hold. *)
Theorem next_run_on_next_minute_boundary (W : World) (s : TimeSkill) :
  valid datetime_now = true -> Calendar.last_minute datetime_now = false ->
  exists next,
    pending "CacheTTS" (snd (_cache_current_time_tts s)) = [next] /\
    second next = 0%Z /\ microsecond next = 0%Z /\
    (to_microseconds next =
       to_microseconds datetime_now
       - (second datetime_now * 1000000 + microsecond datetime_now)
       + 60000000)%Z /\
    (to_microseconds next =
       (to_microseconds datetime_now / 60000000 + 1) * 60000000)%Z.
Proof.
  intros Hv Hlast.
  destruct (next_minute_of_spec datetime_now Hv Hlast)
    as (next & Hnext & Hus & Hsec & Hmicro & _ & _).
  exists next. repeat split; try assumption.
  - pose proof (rearm_survives_failure build_and_cache next s Hnext
                  build_and_cache_schedule) as Hgen.
    rewrite <- cache_task_shape in Hgen.
    destruct (_cache_current_time_tts s) as [outcome s']. simpl.
    apply Hgen.
  - pose proof Hv as [_ (_ & _ & Hs & Hm)]%DatetimeFacts.valid_fields.
    rewrite Hus. unfold to_microseconds.
    Z.div_mod_to_equations. lia.
Qed.

Lemma next_run_on_next_minute_boundary_witness :
  let W := English.world None in
  let s := English.skill MARK_I false true in
  exists next,
    pending "CacheTTS" (snd (@_cache_current_time_tts W s)) = [next] /\
    next = mk_datetime 2021 7 30 12 35 0 0 None.
Proof.
  intros W s.
  destruct (next_run_on_next_minute_boundary W s)
    as (next & Hp & _); [reflexivity|reflexivity|].
  exists next. split; [exact Hp|].
  assert (H : [next] = [mk_datetime 2021 7 30 12 35 0 0 None])
    by (rewrite <- Hp; reflexivity).
  by injection H.
Defined.


(** *** The displays *)

Section Displays.
Context {W : World}.

Lemma platform_is_true name s :
  platform s = Some name -> platform_is name s = true.
Proof. intros H. unfold platform_is. by rewrite bool_decide_eq_true_2. Qed.

End Displays.

(** C9: on the Mark II the display handler splits the formatted time at
    ":" and unpacks the pieces into hour and minute.  With exactly one
    colon it returns, the two pieces are the [hour] and [minute] fields,
    the [location] field is the display location when the response has a
    geolocation and is left as it was otherwise, and the page is shown;
    with no colon or more than one it raises [ValueError] and neither the
    fields nor the page change. *)
Theorem display_gui_mark_ii_needs_one_colon (W : World)
    (response : Response) (s : TimeSkill) :
  platform s = Some MARK_II ->
  let display_time := get_display_time (date_time response) (config_core s) in
  let '(outcome, s') := _display_gui response s in
  (count ":" display_time = 1 ->
   exists hour minute,
     display_time = (hour ++ ":" ++ minute)%string /\
     outcome = Ok () /\
     gui s' !! "hour" = Some hour /\
     gui s' !! "minute" = Some minute /\
     gui s' !! "location" =
       match geolocation response with
       | Some geo => Some (display_location geo)
       | None => gui s !! "location"
       end /\
     effects s' = effects s ++ [GuiShowPage "time-mark-ii.qml" true]) /\
  (count ":" display_time <> 1 ->
   exists msg,
     outcome = Raise (ValueError msg) /\ gui s' = gui s /\
     effects s' = effects s).
Proof.
  intros Hp display_time. unfold _display_gui.
  fold display_time.
  pose proof (StrFacts.split_length ":" display_time) as Hlen.
  pose proof (StrFacts.join_split ":" display_time) as Hjoin.
  run. rewrite (platform_is_true _ _ Hp). fold display_time.
  destruct (split ":" display_time) as [|hour [|minute [|x l]]] eqn:Hsplit;
    simpl in Hlen.
  - discriminate.
  - run. split; [lia|]. intros _. eexists. done.
  - unfold get_display_location.
    destruct (geolocation response) as [geo|]; run.
    + split; [|lia]. intros _. exists hour, minute.
      split; [by rewrite <- Hjoin|]. split; [done|].
      by simplify_map_eq.
    + split; [|lia]. intros _. exists hour, minute.
      split; [by rewrite <- Hjoin|]. split; [done|].
      by simplify_map_eq.
  - run. split; [lia|]. intros _. eexists. done.
Qed.

Lemma display_gui_mark_ii_needs_one_colon_witness :
  let W := English.world None in
  let s := English.skill MARK_II true false in
  let response :=
    snd (@build_current_time_response W "what time is it in tokyo"
           new_response) in
  let display_time := "21:34" in
  let '(outcome, s') := @_display_gui W response s in
  (count ":" display_time = 1 ->
   exists hour minute,
     display_time = (hour ++ ":" ++ minute)%string /\
     outcome = Ok () /\
     gui s' !! "hour" = Some hour /\
     gui s' !! "minute" = Some minute /\
     gui s' !! "location" =
       match geolocation response with
       | Some geo => Some (display_location geo)
       | None => gui s !! "location"
       end /\
     effects s' = effects s ++ [GuiShowPage "time-mark-ii.qml" true]) /\
  (count ":" display_time <> 1 ->
   exists msg,
     outcome = Raise (ValueError msg) /\ gui s' = gui s /\
     effects s' = effects s).
Proof.
  intros W s response display_time.
  apply (display_gui_mark_ii_needs_one_colon W response s). reflexivity.
Defined.

(** C10: the idle loop of the Mark I draws only when it should show the
    time, the faceplate is idle and the formatted time differs from the
    one it drew last.  When the formatted time is the stored one, or the
    setting is off, or the faceplate is in use, the tick has asked the
    enclosure who owns the faceplate and done nothing else: no drawing
    call, the stored value unchanged.  Otherwise one drawing call with
    the new string is made and the stored value is that string. *)
Theorem display_idle_draws_only_on_change (W : World) (s : TimeSkill) :
  let display_time := get_display_time (Some (now None)) (config_core s) in
  let asked := set_effects (effects s ++ [GetActive]) s in
  let '(outcome, s') := display_idle s in
  outcome = Ok () /\
  (displayed_time s = Some display_time -> s' = asked) /\
  (display_when_idle s = false \/ truthy (display_active s) = true ->
   s' = asked) /\
  (display_when_idle s = true -> truthy (display_active s) = false ->
   displayed_time s <> Some display_time ->
   displayed_time s' = Some display_time /\
   exists alarm, drawings s' = drawings s ++ [(display_time, alarm)]).
Proof.
  intros display_time asked. subst display_time asked.
  unfold display_idle. run.
  change (display_when_idle _) with (display_when_idle s).
  destruct (display_when_idle s) eqn:Hidle; simpl.
  2: { repeat split; done. }
  destruct (truthy (display_active s)) eqn:Hactive; simpl.
  { repeat split; done. }
  remember (get_display_time (Some (now None)) (config_core s))
    as display_time eqn:Ht.
  destruct (bool_decide (Some display_time = displayed_time s)) eqn:Hsame;
    simpl.
  { apply bool_decide_eq_true in Hsame. repeat split; done. }
  apply bool_decide_eq_false in Hsame.
  unfold _display_mark_i, _is_alarm_set. run.
  change (display_when_idle _) with (display_when_idle s). rewrite Hidle.
  run. repeat split.
  - congruence.
  - intros [?|?]; done.
  - eexists. unfold drawings. simpl.
    rewrite !omap_app. simpl. rewrite !app_nil_r. reflexivity.
Qed.

Lemma display_idle_draws_only_on_change_witness :
  let W := English.world None in
  let s := English.skill MARK_I false true in
  let '(outcome, s') := @display_idle W s in
  drawings s' = [("12:34", Some true)] /\ displayed_time s' = Some "12:34" /\
  snd (@display_idle W s') = set_effects (effects s' ++ [GetActive]) s'.
Proof.
  intros W s.
  pose proof (display_idle_draws_only_on_change W s) as H1.
  destruct (display_idle s) as [outcome s'] eqn:E.
  destruct H1 as (_ & _ & _ & H1).
  destruct H1 as [Hshown [alarm Hdraw]]; [reflexivity|reflexivity|discriminate|].
  pose proof (display_idle_draws_only_on_change W s') as H2.
  assert (Hs' : s' = snd (display_idle s)) by (by rewrite E).
  destruct (display_idle s') as [outcome' s''].
  destruct H2 as (_ & H2 & _).
  split; [|split; [exact Hshown|]].
  - rewrite Hs'. reflexivity.
  - apply H2. rewrite Hs'. reflexivity.
Defined.

End HandlerFacts.

(** ** The scenarios of the specification, run in the English world *)

Module Scenarios.
Import PyStr ResponseModel Skill English.

Definition W : World := world None.

Definition built (r : result () * Response)
  : result () * option string * option datetime * option string :=
  (fst r, dialog_name (snd r), date_time (snd r),
   requested_location (snd r)).

Example what_time_is_it :
  built (@build_current_time_response W "what time is it" new_response) =
  (Ok (), Some "current-time",
   Some (mk_datetime 2021 7 30 12 34 56 789000 (Some "UTC")), None).
Proof. vm_compute. reflexivity. Qed.

Example what_time_is_it_in_tokyo :
  built (@build_current_time_response W "what time is it in tokyo"
           new_response) =
  (Ok (), Some "current-time-location",
   Some (mk_datetime 2021 7 30 21 34 56 789000 (Some "Asia/Tokyo")),
   Some "tokyo").
Proof. vm_compute. reflexivity. Qed.

Example what_time_is_it_in_wakanda :
  built (@build_current_time_response W "what time is it in wakanda"
           new_response) =
  (Raise LocationNotFoundError, None, None, Some "wakanda").
Proof. vm_compute. reflexivity. Qed.

Example what_time_will_it_be_in_3_hours :
  built (@build_future_time_response W "what time will it be in 3 hours"
           new_response) =
  (Ok (), Some "future-time",
   Some (mk_datetime 2021 7 30 15 34 56 789000 (Some "UTC")), None).
Proof. vm_compute. reflexivity. Qed.

Example what_time_will_it_be :
  built (@build_future_time_response W "what time will it be" new_response) =
  (Ok (), None, None, None).
Proof. vm_compute. reflexivity. Qed.

(** The request of the module docstring: the Duration Extractor cuts
    "5 hours" out; the location pattern finds "london in 5 hours" in the
    raw request and "london in" in the remainder. *)
Example what_time_is_it_in_london_in_5_hours :
  @extract_duration W "what time is it in london in 5 hours" =
    ("what time is it in london in", mk_timedelta 0 18000 0) /\
  @extract_location W "what time is it in london in 5 hours" =
    Some "london in 5 hours" /\
  @extract_location W "what time is it in london in" = Some "london in".
Proof. vm_compute. repeat split. Qed.

(** A duration of two numeral + unit pairs: both are cut out, the blanks
    around them stay. *)
Example what_time_will_it_be_in_1_hour_30_minutes_in_london :
  let utterance := "what time will it be in 1 hour 30 minutes in london" in
  @extract_duration W utterance =
    ("what time will it be in   in london", mk_timedelta 0 5400 0) /\
  @extract_location W utterance = Some "1 hour 30 minutes in london" /\
  @extract_location W (fst (@extract_duration W utterance)) =
    Some "in london".
Proof. vm_compute. repeat split. Qed.

(** A duration phrase without place preposition in front of the place:
    the location pattern finds "london" in the raw request as well as in
    the remainder. *)
Example what_time_will_it_be_3_days_from_now_in_london :
  let utterance := "what time will it be 3 days from now in london" in
  @extract_duration W utterance =
    ("what time will it be  from now in london", mk_timedelta 3 0 0) /\
  @extract_location W utterance = Some "london" /\
  built (@build_future_time_response W utterance new_response) =
  (Ok (), Some "future-time-location",
   Some (mk_datetime 2021 8 2 13 34 56 789000 (Some "Europe/London")),
   Some "london").
Proof. vm_compute. repeat split. Qed.

(** Future framing without duration: a place that is found leaves the
    date-time unset, a place that is not found raises; the handler then
    speaks the location-not-found dialog and nothing else, where the
    current-time handler logs the request first. *)
Example what_time_will_it_be_in_wakanda :
  built (@build_future_time_response W "what time will it be in tokyo"
           new_response) = (Ok (), None, None, Some "tokyo") /\
  built (@build_future_time_response W "what time will it be in wakanda"
           new_response) =
    (Raise LocationNotFoundError, None, None, Some "wakanda") /\
  effects (snd (@_handle_future_time W
                  (request "what time will it be in wakanda")
                  (skill MARK_II true false))) =
    [not_found_call "wakanda"] /\
  effects (snd (@_handle_current_time W
                  (request "what time will it be in wakanda")
                  (skill MARK_II true false))) =
    [request_log (request "what time will it be in wakanda");
     not_found_call "wakanda"].
Proof. vm_compute. repeat split. Qed.

(** Adding a day at the end of a leap February and of a year. *)
Example add_one_day_over_month_end :
  datetime_add (mk_datetime 2024 2 28 23 30 0 0 None) (mk_timedelta 1 0 0) =
    Ok (mk_datetime 2024 2 29 23 30 0 0 None) /\
  datetime_add (mk_datetime 2023 12 31 23 59 59 999999 None)
    (mk_timedelta 0 0 1) =
    Ok (mk_datetime 2024 1 1 0 0 0 0 None) /\
  datetime_add (mk_datetime 9999 12 31 23 59 0 0 None) (mk_timedelta 0 60 0) =
    Raise (OverflowError "result out of range").
Proof. vm_compute. repeat split. Qed.

(** A current-time request on a Mark II with a screen: the page is shown,
    the answer is spoken with the cache key, the next pre-cache run is
    armed. *)
Example handle_what_time_is_it :
  let '(outcome, s') :=
    @_handle_current_time W (request "what time is it")
      (skill MARK_II true false) in
  outcome = Ok () /\
  gui s' !! "hour" = Some "12" /\ gui s' !! "minute" = Some "34" /\
  gui s' !! "location" = None /\
  speech s' =
    [(Some "current-time", Some ({[ "time" := Some "12:34" ]} : DialogData),
      Some "mycroft-date-time.current-time", true)] /\
  scheduled s' = [("CacheTTS", mk_datetime 2021 7 30 12 35 0 0 None)].
Proof. vm_compute. repeat split. Qed.

End Scenarios.

(** ** What the handlers do on each platform *)

Module BehaviourFacts.
Import PyStr ResponseModel ResponseFacts Skill HandlerFacts.

#[local] Hint Resolve preserves_ret preserves_raise preserves_gets
  preserves_lift preserves_bind preserves_try_except
  returns_ret returns_gets returns_bind returns_try_except
  returns_modify returns_emit : frame.
#[local] Hint Extern 1 (preserves _ (modify _)) =>
  apply preserves_modify; reflexivity : frame.
#[local] Hint Extern 1 (preserves _ (emit _)) =>
  apply preserves_modify; reflexivity : frame.
#[local] Hint Extern 2 (preserves _ (if ?b then _ else _)) =>
  destruct b : frame.
#[local] Hint Extern 2 (returns (if ?b then _ else _)) => destruct b : frame.
#[local] Hint Extern 3 (preserves _ (match ?x with _ => _ end)) =>
  destruct x : frame.
#[local] Hint Extern 3 (returns (match ?x with _ => _ end)) =>
  destruct x : frame.

(** Unfold every method down to the statements on the state. *)
Ltac unfold_methods :=
  unfold _handle_future_time, _handle_current_time,
    _handle_location_not_found, _respond, _display_time, _display_gui,
    _display_mark_i, _is_alarm_set, _clear_mark_i_display, remove_active,
    speak_dialog, _cache_current_time_tts, cache_dialog,
    cancel_scheduled_event, schedule_event, gui_set, display_idle.

(** X1: the [platform] property is the nested lookup
    [config_core["enclosure"]["platform"]]; the emptiness tests in front
    of it never change the answer. *)
Theorem platform_is_nested_lookup (s : TimeSkill) :
  platform s =
  config_core s !! "enclosure" ≫= (fun enclosure => enclosure !! "platform").
Proof.
  unfold platform. case_bool_decide as Hcfg.
  - by rewrite Hcfg, lookup_empty.
  - destruct (config_core s !! "enclosure") as [enclosure|]; simpl; [|done].
    case_bool_decide as Henc; [|done]. by rewrite Henc, lookup_empty.
Qed.

Lemma platform_is_false name s :
  platform s <> Some name -> platform_is name s = false.
Proof. intros H. unfold platform_is. by rewrite bool_decide_eq_false_2. Qed.

(** The setters in the goal leave the platform of [s] as it is. *)
Ltac same_platform s :=
  repeat match goal with
  | |- context [platform_is ?n ?t] =>
    lazymatch t with
    | s => fail
    | _ => change (platform_is n t) with (platform_is n s)
    end
  | |- context [display_when_idle ?t] =>
    lazymatch t with
    | s => fail
    | _ => change (display_when_idle t) with (display_when_idle s)
    end
  end.

Section Display.
Context {W : World}.

(** The faceplate path of [_display_time]. *)
Lemma display_time_mark_i response s :
  platform s = Some MARK_I ->
  _display_time response s =
    (Ok (),
     set_effects
       (effects s ++
        DeactivateMouthEvents ::
        (if display_when_idle s
         then [BusWaitForResponse "private.mycroftai.has_alarm"] else []) ++
        [RenderTime (get_display_time (date_time response) (config_core s))
           (if display_when_idle s then
              match has_alarm_response with
              | None => None
              | Some None => Some false
              | Some (Some active_alarms) => Some (0 <? active_alarms)%Z
              end
            else Some false)]) s).
Proof.
  intros Hp. unfold _display_time, _display_mark_i, _is_alarm_set.
  unfold bind at 1. unfold gets at 1.
  rewrite (platform_is_true _ _ Hp). run.
  change (display_when_idle _) with (display_when_idle s).
  destruct (display_when_idle s); run; rewrite <- ?app_assoc; [|done].
  by destruct has_alarm_response as [[n|]|].
Qed.

(** X2: [_display_mark_i] asks the alarm skill only when the idle display
    is on, and never raises.  The flag it hands to [render_time] is
    [False] when the idle display is off; otherwise it is what the
    answer gives: [True] exactly when the answer reports more than zero
    active alarms, [False] when it reports none or has no such entry,
    and [None], the missing answer itself, when the bus gave no
    answer. *)
Theorem display_mark_i_alarm_mark (display_time : string) (s : TimeSkill) :
  _display_mark_i display_time s =
    (Ok (),
     set_effects
       (effects s ++
        (if display_when_idle s
         then [BusWaitForResponse "private.mycroftai.has_alarm"] else []) ++
        [RenderTime display_time
           (if display_when_idle s then
              match has_alarm_response with
              | None => None
              | Some None => Some false
              | Some (Some active_alarms) => Some (0 <? active_alarms)%Z
              end
            else Some false)]) s).
Proof.
  unfold _display_mark_i, _is_alarm_set. run.
  destruct (display_when_idle s); run.
  - rewrite <- !app_assoc. by destruct has_alarm_response as [[n|]|].
  - done.
Qed.

Lemma display_time_headless response s :
  platform s <> Some MARK_I -> gui_connected s = false ->
  _display_time response s = (Ok (), s).
Proof.
  intros Hp Hc. unfold _display_time.
  unfold bind at 1. unfold gets at 1.
  rewrite (platform_is_false _ _ Hp). run. by rewrite Hc.
Qed.

Lemma display_time_gui response s :
  platform s <> Some MARK_I -> gui_connected s = true ->
  _display_time response s = _display_gui response s.
Proof.
  intros Hp Hc. unfold _display_time.
  unfold bind at 1. unfold gets at 1.
  rewrite (platform_is_false _ _ Hp). run. by rewrite Hc.
Qed.

Lemma display_gui_scalable response s :
  platform s <> Some MARK_II ->
  _display_gui response s =
    (Ok (),
     set_effects (effects s ++ [GuiShowPage "time-scalable.qml" true])
       (set_gui
          (<["timeString" :=
               get_display_time (date_time response) (config_core s)]>
             (gui s)) s)).
Proof.
  intros Hp. unfold _display_gui.
  unfold bind at 1. unfold gets at 1. cbv beta iota.
  unfold bind at 1. unfold gets at 1.
  rewrite (platform_is_false _ _ Hp). by run.
Qed.

(** The graphical path on a Mark II, by the pieces of the time string. *)
Lemma display_gui_mark_ii response s :
  platform s = Some MARK_II ->
  _display_gui response s =
    match split ":" (get_display_time (date_time response) (config_core s))
    with
    | [hour; minute] =>
      (Ok (),
       set_effects (effects s ++ [GuiShowPage "time-mark-ii.qml" true])
         (set_gui
            (match geolocation response with
             | Some geo => <["location" := display_location geo]>
             | None => id
             end (<["minute" := minute]> (<["hour" := hour]> (gui s)))) s))
    | [] | [_] => (Raise (ValueError "not enough values to unpack"), s)
    | _ => (Raise (ValueError "too many values to unpack"), s)
    end.
Proof.
  intros Hp. unfold _display_gui.
  unfold bind at 1. unfold gets at 1. cbv beta iota.
  unfold bind at 1. unfold gets at 1.
  rewrite (platform_is_true _ _ Hp). cbv beta iota.
  destruct (split ":" _) as [|hour [|minute [|x l]]]; run; try done.
  unfold get_display_location.
  destruct (geolocation response) as [geo|]; by run.
Qed.

End Display.

(** The answer on a Mark I, call by call. *)
Lemma respond_mark_i_run (W : World) (response : Response)
    (cache_key : option string) (s : TimeSkill) :
  platform s = Some MARK_I ->
  _respond response cache_key s =
    (Ok (),
     set_display_active ""
       (set_effects
          (effects s ++
           DeactivateMouthEvents ::
           (if display_when_idle s
            then [BusWaitForResponse "private.mycroftai.has_alarm"]
            else []) ++
           [RenderTime
              (get_display_time (date_time response) (config_core s))
              (if display_when_idle s then
                 match has_alarm_response with
                 | None => None
                 | Some None => Some false
                 | Some (Some active_alarms) => Some (0 <? active_alarms)%Z
                 end
               else Some false);
            SpeakDialog (dialog_name response) (dialog_data response)
              cache_key true;
            Sleep TEN_SECONDS; MouthReset; ActivateMouthEvents;
            RemoveActive]) s)).
Proof.
  intros Hp. unfold _respond. unfold bind at 1.
  rewrite (display_time_mark_i response s Hp).
  unfold _clear_mark_i_display. run.
  same_platform s.
  rewrite (platform_is_true _ _ Hp). run.
  same_platform s.
  rewrite (platform_is_true _ _ Hp). run.
  unfold set_display_active, set_effects. simpl. do 2 f_equal.
  rewrite <- !app_assoc. simpl. do 2 f_equal.
  by rewrite <- !app_assoc.
Qed.

(** X3: on a Mark I an answer never raises and never touches the
    graphical display, connected or not.  The calls are, in order: mouth
    events off, the alarm query if the idle display is on, the time
    drawn, the dialog spoken and waited for, ten seconds of sleep, the
    mouth reset, mouth events on again, the faceplate released. *)
Theorem respond_on_mark_i (W : World) (response : Response)
    (cache_key : option string) (s : TimeSkill) :
  platform s = Some MARK_I ->
  _respond response cache_key s =
    (Ok (),
     set_display_active ""
       (set_effects
          (effects s ++
           DeactivateMouthEvents ::
           (if display_when_idle s
            then [BusWaitForResponse "private.mycroftai.has_alarm"]
            else []) ++
           [RenderTime
              (get_display_time (date_time response) (config_core s))
              (if display_when_idle s then
                 match has_alarm_response with
                 | None => None
                 | Some None => Some false
                 | Some (Some active_alarms) => Some (0 <? active_alarms)%Z
                 end
               else Some false);
            SpeakDialog (dialog_name response) (dialog_data response)
              cache_key true;
            Sleep TEN_SECONDS; MouthReset; ActivateMouthEvents;
            RemoveActive]) s)).
Proof. apply respond_mark_i_run. Qed.

Lemma respond_on_mark_i_witness :
  let W := English.world None in
  let s := English.skill MARK_I true true in
  let response :=
    snd (@build_current_time_response W "what time is it" new_response) in
  gui (snd (@_respond W response None s)) = gui s /\
  drawings (snd (@_respond W response None s)) = [("12:34", Some true)].
Proof.
  intros W s response.
  rewrite (respond_on_mark_i W response None s); [|reflexivity].
  split; reflexivity.
Defined.

(** The answer without faceplate, call by call. *)
Lemma respond_plain_run (W : World) (response : Response)
    (cache_key : option string) (s : TimeSkill) :
  platform s <> Some MARK_I ->
  (gui_connected s = false ->
   _respond response cache_key s =
     (Ok (),
      set_effects
        (effects s ++
         [SpeakDialog (dialog_name response) (dialog_data response)
            cache_key true]) s)) /\
  (gui_connected s = true -> platform s <> Some MARK_II ->
   _respond response cache_key s =
     (Ok (),
      set_effects
        (effects s ++
         [GuiShowPage "time-scalable.qml" true;
          SpeakDialog (dialog_name response) (dialog_data response)
            cache_key true;
          GuiRelease])
        (set_gui
           (<["timeString" :=
                get_display_time (date_time response) (config_core s)]>
              (gui s)) s))).
Proof.
  intros Hp. split.
  - intros Hc. unfold _respond. unfold bind at 1.
    rewrite (display_time_headless response s Hp Hc). run.
    same_platform s.
    rewrite (platform_is_false _ _ Hp). run. by rewrite Hc.
  - intros Hc Hp2. unfold _respond. unfold bind at 1.
    rewrite (display_time_gui response s Hp Hc),
      (display_gui_scalable response s Hp2). run.
    same_platform s.
    rewrite (platform_is_false _ _ Hp). run. rewrite Hc.
    run. by rewrite <- !app_assoc.
Qed.

(** X4: without Mark I faceplate an answer on a connected display that is
    not a Mark II never raises, whatever the formatted time looks like:
    the time string goes to the [timeString] field, the other fields
    stay, the scalable page is shown, the dialog is spoken and the
    display is released; without a connected display the speech call is
    all that happens. *)
Theorem respond_without_faceplate (W : World) (response : Response)
    (cache_key : option string) (s : TimeSkill) :
  platform s <> Some MARK_I ->
  (gui_connected s = false ->
   _respond response cache_key s =
     (Ok (),
      set_effects
        (effects s ++
         [SpeakDialog (dialog_name response) (dialog_data response)
            cache_key true]) s)) /\
  (gui_connected s = true -> platform s <> Some MARK_II ->
   _respond response cache_key s =
     (Ok (),
      set_effects
        (effects s ++
         [GuiShowPage "time-scalable.qml" true;
          SpeakDialog (dialog_name response) (dialog_data response)
            cache_key true;
          GuiRelease])
        (set_gui
           (<["timeString" :=
                get_display_time (date_time response) (config_core s)]>
              (gui s)) s))).
Proof. apply respond_plain_run. Qed.

Lemma respond_without_faceplate_witness :
  let W := English.world None in
  let s := English.skill "mycroft_picroft" true false in
  let response :=
    snd (@build_current_time_response W "what time is it" new_response) in
  gui (snd (@_respond W response None s)) !! "timeString" = Some "12:34".
Proof.
  intros W s response.
  destruct (respond_without_faceplate W response None s) as [_ H];
    [discriminate|].
  rewrite H; [reflexivity|reflexivity|discriminate].
Defined.

Lemma respond_on_mark_ii (W : World) (response : Response)
    (cache_key : option string) (s : TimeSkill) :
  platform s = Some MARK_II -> gui_connected s = true ->
  _respond response cache_key s =
    match split ":" (get_display_time (date_time response) (config_core s))
    with
    | [hour; minute] =>
      (Ok (),
       set_effects
         (effects s ++
          [GuiShowPage "time-mark-ii.qml" true;
           SpeakDialog (dialog_name response) (dialog_data response)
             cache_key true;
           GuiRelease])
         (set_gui
            (match geolocation response with
             | Some geo => <["location" := display_location geo]>
             | None => id
             end (<["minute" := minute]> (<["hour" := hour]> (gui s)))) s))
    | [] | [_] => (Raise (ValueError "not enough values to unpack"), s)
    | _ => (Raise (ValueError "too many values to unpack"), s)
    end.
Proof.
  intros Hp Hc.
  assert (Hp1 : platform s <> Some MARK_I) by (rewrite Hp; discriminate).
  unfold _respond. unfold bind at 1.
  rewrite (display_time_gui response s Hp1 Hc),
    (display_gui_mark_ii response s Hp).
  destruct (split ":" _) as [|hour [|minute [|x l]]]; try reflexivity.
  run. same_platform s. rewrite (platform_is_false _ _ Hp1). run.
  rewrite Hc. run. by rewrite <- !app_assoc.
Qed.

(** X5: answering raises in one situation only: a connected Mark II
    display and a formatted time without exactly one colon.  The
    exception is then a [ValueError], and the skill is exactly as before:
    nothing was shown and nothing was spoken.  In every other situation
    the answer returns. *)
Theorem respond_raises_only_on_mark_ii_colons (W : World)
    (response : Response) (cache_key : option string) (s : TimeSkill) :
  let display_time := get_display_time (date_time response) (config_core s) in
  let '(outcome, s') := _respond response cache_key s in
  (is_ok outcome = false <->
   platform s = Some MARK_II /\ gui_connected s = true /\
   count ":" display_time <> 1) /\
  (is_ok outcome = false ->
   (exists msg, outcome = Raise (ValueError msg)) /\ s' = s).
Proof.
  intros display_time. subst display_time.
  destruct (decide (platform s = Some MARK_I)) as [Hp1|Hp1].
  { rewrite (respond_mark_i_run W response cache_key s Hp1). simpl.
    split; [|done]. split; [done|]. intros [Hp2 _].
    rewrite Hp1 in Hp2. discriminate. }
  destruct (respond_plain_run W response cache_key s Hp1)
    as [Hhead Hgui].
  destruct (gui_connected s) eqn:Hc.
  2: { rewrite Hhead by done. simpl. split; [|done].
       split; [done|]. by intros (_ & ? & _). }
  destruct (decide (platform s = Some MARK_II)) as [Hp2|Hp2].
  2: { rewrite Hgui by done. simpl. split; [|done].
       split; [done|]. by intros (? & _). }
  rewrite (respond_on_mark_ii W response cache_key s Hp2 Hc).
  pose proof (StrFacts.split_length ":"
                (get_display_time (date_time response) (config_core s)))
    as Hlen.
  destruct (split ":" _) as [|hour [|minute [|x l]]]; simpl in *.
  - discriminate.
  - split; [|eauto]. split; [|done]. intros _. repeat split; [done|lia].
  - split; [|done]. split; [done|]. intros (_ & _ & ?). lia.
  - split; [|eauto]. split; [|done]. intros _. repeat split; [done|lia].
Qed.

(** *** The request handlers as a whole *)

(** X6: a request without an [utterance] entry makes both handlers raise
    [KeyError]: the future-time handler has done nothing by then, the
    current-time handler has only logged the keys of the request; nothing
    is shown, spoken or scheduled. *)
Theorem handlers_raise_without_utterance (W : World)
    (request : Message) (s : TimeSkill) :
  dict_get "utterance" (data request) = None ->
  _handle_future_time request s = (Raise (KeyError "utterance"), s) /\
  _handle_current_time request s =
    (Raise (KeyError "utterance"),
     set_effects (effects s ++ [request_log request]) s).
Proof.
  intros Hu. unfold _handle_future_time, _handle_current_time.
  rewrite Hu. split; [reflexivity|]. by run.
Qed.

Lemma handlers_raise_without_utterance_witness :
  let W := English.world None in
  let request := mk_message [("lang", "en-us"); ("utterances", "time")] in
  let s := English.skill MARK_II true false in
  @_handle_future_time W request s = (Raise (KeyError "utterance"), s) /\
  @_handle_current_time W request s =
    (Raise (KeyError "utterance"),
     set_effects
       [LogInfo "request data: dict_keys(['lang', 'utterances'])"] s).
Proof.
  intros W request s.
  apply (handlers_raise_without_utterance W request s). reflexivity.
Defined.

Section Answers.
Context {W : World}.

Lemma respond_schedule response cache_key :
  preserves scheduled (_respond response cache_key).
Proof. unfold_methods. auto 40 with frame. Qed.

(** The speech call of [_respond]: one, unless the display raised. *)
Lemma respond_speech response cache_key s :
  speech (snd (_respond response cache_key s)) =
  speech s ++
  (if is_ok (fst (_respond response cache_key s))
   then [(dialog_name response, dialog_data response, cache_key, true)]
   else []).
Proof.
  unfold _respond.
  pose proof (display_time_speech response s) as Hd.
  destruct (_display_time response s) as [[[]|e] s1] eqn:E1; simpl in Hd.
  - rewrite (run_bind_ok _ _ _ _ _ E1). unfold speak_dialog.
    rewrite (run_bind_ok _ _ s1 ()
               (snd (emit (SpeakDialog (dialog_name response)
                             (dialog_data response) cache_key true) s1)))
      by reflexivity.
    pose proof (speech_emit (SpeakDialog (dialog_name response)
                  (dialog_data response) cache_key true) s1) as Hs.
    set (s2 := snd (emit _ s1)) in *. clearbody s2.
    set (rest := (mark_i <- gets (platform_is MARK_I) ;;
                  if mark_i : bool then _clear_mark_i_display TEN_SECONDS
                  else connected <- gets gui_connected ;;
                       if connected : bool then emit GuiRelease else ret ())).
    assert (Hsp : preserves speech rest).
    { unfold rest. pose proof clear_mark_i_display_speech.
      assert (preserves speech (emit GuiRelease))
        by (by apply preserves_speech_emit).
      auto 20 with frame. }
    assert (Hret : returns rest).
    { unfold rest. pose proof clear_mark_i_display_returns.
      auto 20 with frame. }
    specialize (Hsp s2). specialize (Hret s2).
    destruct (rest s2) as [[[]|e] s3]; [|discriminate].
    simpl in *. by rewrite Hsp, Hs, Hd.
  - rewrite (run_bind_raise _ _ _ _ _ E1). simpl. by rewrite app_nil_r.
Qed.

End Answers.

(** X7: a future-time request with a duration is answered through
    [_respond] without cache key: the one speech call it makes carries no
    key, and the pending events are left as they were, so a future-time
    answer neither uses nor re-arms the speech pre-cache. *)
Theorem future_time_answer_bypasses_cache (W : World)
    (request : Message) (utterance : string) (response : Response)
    (dt : datetime) (s : TimeSkill) :
  dict_get "utterance" (data request) = Some utterance ->
  build_future_time_response utterance new_response = (Ok (), response) ->
  date_time response = Some dt ->
  let '(outcome, s') := _handle_future_time request s in
  speech s' =
    speech s ++
    (if is_ok outcome
     then [(dialog_name response, dialog_data response, None, true)]
     else []) /\
  scheduled s' = scheduled s.
Proof.
  intros Hu Hb Hdt.
  pose proof (respond_speech response None s) as Hsp.
  pose proof (respond_schedule response None s) as Hsch.
  unfold _handle_future_time. rewrite Hu, Hb, Hdt.
  by destruct (_respond response None s) as [outcome s'].
Qed.

Lemma future_time_answer_bypasses_cache_witness :
  let W := English.world None in
  let s := English.skill MARK_I false false in
  let utterance := "what time will it be 3 hours from now in tokyo" in
  let response :=
    snd (@build_future_time_response W utterance new_response) in
  let '(outcome, s') :=
    @_handle_future_time W (English.request utterance) s in
  speech s' =
    speech s ++
    (if is_ok outcome
     then [(dialog_name response, dialog_data response, None, true)]
     else []) /\
  scheduled s' = scheduled s.
Proof.
  intros W s utterance response.
  apply (future_time_answer_bypasses_cache W (English.request utterance)
           utterance response
           (mk_datetime 2021 7 31 0 34 56 789000 (Some "Asia/Tokyo")) s);
    by vm_compute.
Defined.

(** X8: the current-time handler re-arms the pre-cache task exactly
    when it answered.  When it returns after building a response, one
    "CacheTTS" run is pending, at the first whole minute after the clock
    reading; when the answer raised, or the location was not found, the
    pending events are as they were.  The clock is read as a [datetime]
    before the last minute the type can hold. *)
Theorem current_time_rearms_cache_when_answered (W : World)
    (request : Message) (utterance : string) (s : TimeSkill) :
  dict_get "utterance" (data request) = Some utterance ->
  valid datetime_now = true -> Calendar.last_minute datetime_now = false ->
  let '(outcome, s') := _handle_current_time request s in
  (forall response,
     build_current_time_response utterance new_response = (Ok (), response) ->
     if is_ok outcome then
       exists next,
         pending "CacheTTS" s' = [next] /\
         (to_microseconds next =
            (to_microseconds datetime_now / 60000000 + 1) * 60000000)%Z
     else scheduled s' = scheduled s) /\
  (forall response,
     build_current_time_response utterance new_response =
       (Raise LocationNotFoundError, response) ->
     outcome = Ok () /\ scheduled s' = scheduled s).
Proof.
  intros Hu Hv Hlast.
  destruct (next_minute_of_spec datetime_now Hv Hlast)
    as (next & Hnext & Hus & _ & _ & _ & _).
  pose proof Hv as [_ (_ & _ & Hs & Hm)]%DatetimeFacts.valid_fields.
  unfold _handle_current_time. rewrite Hu.
  destruct (build_current_time_response utterance new_response)
    as [[[]|e] response] eqn:Hb.
  - set (s0 := snd (emit (request_log request) s)).
    rewrite (run_bind_ok _ _ s () s0) by reflexivity.
    rewrite (run_bind_ok _ _ s0 (_current_time_cache_key s) s0)
      by reflexivity.
    set (cache_key := if negb _ then _ else _).
    pose proof (respond_schedule response cache_key s0) as Hsch.
    destruct (_respond response cache_key s0) as [[[]|e] s1] eqn:Hr;
      simpl in Hsch.
    + rewrite (run_bind_ok _ _ _ _ _ Hr).
      pose proof (rearm_survives_failure build_and_cache next s1 Hnext
                    build_and_cache_schedule) as Hgen.
      rewrite <- cache_task_shape in Hgen.
      destruct (_cache_current_time_tts s1) as [outcome s'].
      destruct Hgen as [-> Hp]. split; [|intros ? [=]].
      intros ? [= <-]. simpl. exists next. split; [exact Hp|].
      rewrite Hus. unfold to_microseconds. Z.div_mod_to_equations. lia.
    + rewrite (run_bind_raise _ _ _ _ _ Hr). split; [|intros ? [=]].
      intros ? [= <-]. simpl. exact Hsch.
  - destruct e; run; (split; [intros ? [=]|]); intros ? [=]; by subst.
Qed.

Lemma current_time_rearms_cache_when_answered_witness :
  let W := English.world None in
  let s := English.skill MARK_II true false in
  let utterance := "what time is it in tokyo" in
  let '(outcome, s') :=
    @_handle_current_time W (English.request utterance) s in
  (forall response,
     @build_current_time_response W utterance new_response =
       (Ok (), response) ->
     if is_ok outcome then
       exists next,
         pending "CacheTTS" s' = [next] /\
         (to_microseconds next =
            (to_microseconds (@datetime_now W) / 60000000 + 1) * 60000000)%Z
     else scheduled s' = scheduled s) /\
  (forall response,
     @build_current_time_response W utterance new_response =
       (Raise LocationNotFoundError, response) ->
     outcome = Ok () /\ scheduled s' = scheduled s).
Proof.
  intros W s utterance.
  apply (current_time_rearms_cache_when_answered W
           (English.request utterance) utterance s); reflexivity.
Defined.

Section Stable.
Context {W : World}.

Lemma cache_current_time_tts_fixed : preserves fixed_part _cache_current_time_tts.
Proof. unfold_methods. auto 40 with frame. Qed.

Lemma handle_current_time_fixed request :
  preserves fixed_part (_handle_current_time request).
Proof. unfold_methods. auto 40 with frame. Qed.

Lemma handle_future_time_fixed request :
  preserves fixed_part (_handle_future_time request).
Proof.
  pose proof (handle_current_time_fixed request).
  unfold _handle_future_time, _handle_location_not_found, _respond,
    _display_time, _display_gui, _display_mark_i, _is_alarm_set,
    _clear_mark_i_display, remove_active, speak_dialog, gui_set.
  auto 40 with frame.
Qed.

Lemma display_idle_same s :
  displayed_time s =
    Some (get_display_time (Some (now None)) (config_core s)) ->
  display_idle s = (Ok (), set_effects (effects s ++ [GetActive]) s).
Proof.
  intros Hsame. unfold display_idle. run.
  change (display_when_idle _) with (display_when_idle s).
  destruct (display_when_idle s); simpl; [|done].
  destruct (truthy (display_active s)); simpl; [done|].
  by rewrite Hsame, bool_decide_eq_true_2.
Qed.

End Stable.

(** X9: the request handlers and the pre-cache task never assign the
    configuration, the settings, the string last drawn by the idle loop
    or the cache key; so the platform and the idle-display setting of the
    skill are the same after any of them, however it ends. *)
Theorem handlers_keep_configuration (W : World)
    (request : Message) (s : TimeSkill) :
  let kept (s' : TimeSkill) :=
    config_core s' = config_core s /\ settings s' = settings s /\
    displayed_time s' = displayed_time s /\
    _current_time_cache_key s' = _current_time_cache_key s /\
    platform s' = platform s /\
    display_when_idle s' = display_when_idle s in
  kept (snd (_handle_current_time request s)) /\
  kept (snd (_handle_future_time request s)) /\
  kept (snd (_cache_current_time_tts s)).
Proof.
  assert (Hkept : forall s', fixed_part s' = fixed_part s ->
            config_core s' = config_core s /\ settings s' = settings s /\
            displayed_time s' = displayed_time s /\
            _current_time_cache_key s' = _current_time_cache_key s /\
            platform s' = platform s /\
            display_when_idle s' = display_when_idle s).
  { intros s' [= Hc Hs Hd Hk].
    unfold display_when_idle, platform_is, platform. by rewrite Hc, Hs. }
  cbv zeta. split; [|split]; apply Hkept.
  - apply handle_current_time_fixed.
  - apply handle_future_time_fixed.
  - apply cache_current_time_tts_fixed.
Qed.

(** X10: the idle loop goes by the string it drew last, which answering a
    request does not change: when that string is the formatted time now,
    an idle tick after a current-time or future-time request asks the
    enclosure who owns the faceplate and does nothing else, also after an
    answer that drew on and released the faceplate: no drawing call, no
    other change. *)
Theorem idle_tick_after_request_draws_nothing (W : World)
    (request : Message) (s : TimeSkill) :
  displayed_time s =
    Some (get_display_time (Some (now None)) (config_core s)) ->
  (let s' := snd (_handle_current_time request s) in
   display_idle s' = (Ok (), set_effects (effects s' ++ [GetActive]) s')) /\
  (let s' := snd (_handle_future_time request s) in
   display_idle s' = (Ok (), set_effects (effects s' ++ [GetActive]) s')).
Proof.
  intros Hsame. cbv zeta. split; apply display_idle_same.
  - pose proof (handle_current_time_fixed request s) as [= -> _ -> _].
    exact Hsame.
  - pose proof (handle_future_time_fixed request s) as [= -> _ -> _].
    exact Hsame.
Qed.

Lemma idle_tick_after_request_draws_nothing_witness :
  let W := English.world None in
  let s := snd (@display_idle W (English.skill MARK_I false true)) in
  let s' :=
    snd (@_handle_current_time W (English.request "what time is it") s) in
  drawings s = [("12:34", Some true)] /\
  drawings s' = [("12:34", Some true); ("12:34", Some true)] /\
  @display_idle W s' = (Ok (), set_effects (effects s' ++ [GetActive]) s').
Proof.
  intros W s s'. split; [by vm_compute|]. split; [by vm_compute|].
  apply (idle_tick_after_request_draws_nothing W
           (English.request "what time is it") s).
  by vm_compute.
Defined.

End BehaviourFacts.

(** ** The idle event and the initialisation *)

Module LifecycleFacts.
Import PyStr ResponseModel Skill HandlerFacts Lifecycle.

#[local] Hint Resolve preserves_ret preserves_raise preserves_gets
  preserves_lift preserves_bind preserves_try_except : frame.
#[local] Hint Extern 1 (preserves _ (modify _)) =>
  apply preserves_modify; reflexivity : frame.
#[local] Hint Extern 2 (preserves _ (if ?b then _ else _)) =>
  destruct b : frame.
#[local] Hint Extern 3 (preserves _ (match ?x with _ => _ end)) =>
  destruct x : frame.

(** Run the host statements at the head of the goal. *)
Ltac hrun :=
  cbv beta iota zeta delta
    [hbind hret hgets hmodify on_skill host_call with_activity add_event
     disable_intent schedule_repeating_event cancel_event
     set_time_skill set_events set_disabled_intents set_repeating
     set_host_calls set_settings set_current_time_cache_key
     bind ret raise gets modify emit lift get_active remove_active
     cancel_scheduled_event set_effects set_scheduled set_display_active];
  simpl.

Lemma display_when_idle_mark_i s :
  display_when_idle s = true -> platform_is MARK_I s = true.
Proof. unfold display_when_idle. by destruct (platform_is MARK_I s). Qed.

Lemma display_when_idle_iff s :
  display_when_idle s = true <->
  platform s = Some MARK_I /\ settings s !! "show_time" = Some true.
Proof.
  unfold display_when_idle, platform_is.
  case_bool_decide as Hp; [|split; [done|tauto]].
  destruct (settings s !! "show_time") as [[]|]; simpl; split; try done;
    by intros [_ ?].
Qed.

Section Idle.
Context {W : World}.

Lemma check_idle_run h :
  _check_mark_i_idle_setting h =
    (Ok (),
     if display_when_idle (time_skill h)
     then set_repeating (repeating h ++ [idle_event]) h
     else h).
Proof.
  unfold _check_mark_i_idle_setting. hrun.
  destruct (display_when_idle (time_skill h)) eqn:Hidle; simpl; [|done].
  by rewrite (display_when_idle_mark_i _ Hidle).
Qed.

Lemma repeating_named_cancelled name (l : list Repeating) :
  List.filter (fun ev => String.eqb (rep_name ev) name)
    (List.filter (fun ev => negb (String.eqb (rep_name ev) name)) l) = [].
Proof.
  induction l as [|ev l IH]; simpl; [done|].
  destruct (String.eqb (rep_name ev) name) eqn:E; simpl; [done|].
  by rewrite E.
Qed.

Lemma pending_cancelled name (l : list (string * datetime)) :
  List.filter (fun ev => String.eqb (fst ev) name)
    (List.filter (fun ev => negb (String.eqb (fst ev) name)) l) = [].
Proof.
  induction l as [|ev l IH]; simpl; [done|].
  destruct (String.eqb (fst ev) name) eqn:E; simpl; [done|].
  by rewrite E.
Qed.

End Idle.

(** X11: [_check_mark_i_idle_setting], and with it the handler of an
    unrecognised utterance, asks the host for the repeating "IdleTime"
    event (callback [display_idle], first run at local now, every ten
    seconds) exactly when the idle-display property holds, that is on a
    Mark I whose [show_time] setting is on; otherwise it changes nothing.
    It never raises. *)
Theorem check_mark_i_idle_setting_follows_property (W : World) (h : Host) :
  (display_when_idle (time_skill h) = true <->
   platform (time_skill h) = Some MARK_I /\
   settings (time_skill h) !! "show_time" = Some true) /\
  _check_mark_i_idle_setting h =
    (Ok (),
     if display_when_idle (time_skill h)
     then set_repeating
            (repeating h ++
             [mk_repeating "IdleTime" CbDisplayIdle (now None) TEN_SECONDS]) h
     else h) /\
  handle_speech_recognition_unknown h = _check_mark_i_idle_setting h.
Proof.
  split; [apply display_when_idle_iff|]. split; [apply check_idle_run|done].
Qed.

(** X12: with the idle display off, in particular on every platform
    other than the Mark I, the wake word, the end of speech and an
    unrecognised utterance leave the skill and the host exactly as they
    were: no call, no event scheduled or cancelled.  An idle tick that
    still fires asks the enclosure who owns the faceplate, as it does
    first whatever the setting, and does nothing else. *)
Theorem idle_handlers_inert_when_off (W : World) (h : Host) :
  platform (time_skill h) <> Some MARK_I \/
  settings (time_skill h) !! "show_time" <> Some true ->
  handle_wake_word_detected h = (Ok (), h) /\
  handle_speak h = (Ok (), h) /\
  handle_speech_recognition_unknown h = (Ok (), h) /\
  on_skill display_idle h =
    (Ok (),
     set_time_skill
       (set_effects (effects (time_skill h) ++ [GetActive]) (time_skill h)) h).
Proof.
  intros Hoff.
  assert (Hidle : display_when_idle (time_skill h) = false).
  { destruct (display_when_idle (time_skill h)) eqn:E; [|done].
    apply display_when_idle_iff in E. tauto. }
  repeat split.
  - unfold handle_wake_word_detected. hrun. rewrite Hidle.
    by rewrite andb_false_r.
  - unfold handle_speak. hrun. rewrite Hidle. by rewrite andb_false_r.
  - unfold handle_speech_recognition_unknown.
    by rewrite check_idle_run, Hidle.
  - unfold display_idle. hrun.
    match goal with |- context [display_when_idle ?t] =>
      change (display_when_idle t) with (display_when_idle (time_skill h))
    end.
    by rewrite Hidle.
Qed.

Lemma idle_handlers_inert_when_off_witness :
  let W := English.world None in
  let h :=
    mk_host (English.skill MARK_II true true) "mycroft-date-time" "en-us"
      [] [] [] [] in
  handle_wake_word_detected h = (Ok (), h) /\
  @handle_speak W h = (Ok (), h) /\
  @handle_speech_recognition_unknown W h = (Ok (), h) /\
  on_skill (@display_idle W) h =
    (Ok (),
     set_time_skill
       (set_effects (effects (time_skill h) ++ [GetActive]) (time_skill h)) h).
Proof.
  intros W h. apply (idle_handlers_inert_when_off W h).
  left. by vm_compute.
Defined.

Lemma display_when_idle_shown s :
  display_when_idle (set_settings (<["show_time" := true]> (settings s)) s) =
  platform_is MARK_I s.
Proof.
  unfold display_when_idle. simpl.
  change (platform_is MARK_I (set_settings _ s)) with (platform_is MARK_I s).
  destruct (platform_is MARK_I s); [|done]. by rewrite lookup_insert_eq.
Qed.

(** X13: "show the time" stores [show_time = True] whatever the
    platform, inside one activity.  On a Mark I the idle display is on
    afterwards, whatever the setting was, and the "IdleTime" event is
    asked for; on any other platform the idle display stays off and no
    event is asked for.  It never raises. *)
Theorem handle_show_time_turns_idle_display_on (W : World) (h : Host) :
  let '(outcome, h') := handle_show_time h in
  outcome = Ok () /\
  settings (time_skill h') = <["show_time" := true]> (settings (time_skill h)) /\
  host_calls h' = host_calls h ++ [ActivityBegin; ActivityEnd] /\
  effects (time_skill h') = effects (time_skill h) /\
  (platform (time_skill h) = Some MARK_I ->
   display_when_idle (time_skill h') = true /\
   repeating h' =
     repeating h ++
     [mk_repeating "IdleTime" CbDisplayIdle (now None) TEN_SECONDS]) /\
  (platform (time_skill h) <> Some MARK_I ->
   display_when_idle (time_skill h') = false /\ repeating h' = repeating h).
Proof.
  unfold handle_show_time, with_activity.
  unfold host_call at 1. unfold hmodify at 1. cbv beta iota zeta.
  set (h0 := set_host_calls (host_calls h ++ [ActivityBegin]) h).
  unfold hbind at 1. unfold on_skill at 1. unfold modify at 1.
  cbv beta iota zeta.
  set (s1 := set_settings (<["show_time" := true]> (settings (time_skill h0)))
               (time_skill h0)).
  rewrite check_idle_run.
  change (time_skill (set_time_skill s1 h0)) with s1.
  unfold s1 at 1. rewrite display_when_idle_shown.
  change (platform_is MARK_I (time_skill h0))
    with (platform_is MARK_I (time_skill h)).
  unfold platform_is. case_bool_decide as Hp; hrun.
  - split; [done|]. split; [done|]. split; [by rewrite <- app_assoc|].
    split; [done|]. split; [|done]. intros _. split; [|done].
    unfold display_when_idle, platform_is. simpl.
    change (platform _) with (platform (time_skill h)).
    by rewrite bool_decide_eq_true_2, lookup_insert_eq.
  - split; [done|]. split; [done|]. split; [by rewrite <- app_assoc|].
    split; [done|]. split; [done|]. intros _. split; [|done].
    unfold display_when_idle, platform_is. simpl.
    change (platform _) with (platform (time_skill h)).
    by rewrite bool_decide_eq_false_2.
Qed.

Section WakeWord.
Context {W : World}.

Lemma handle_wake_word_detected_run h :
  display_when_idle (time_skill h) = true ->
  handle_wake_word_detected h =
    (Ok (),
     set_repeating
       (List.filter (fun ev => negb (String.eqb (rep_name ev) "IdleTime"))
          (repeating h))
       (set_time_skill
          (set_scheduled
             (List.filter (fun ev => negb (String.eqb (fst ev) "IdleTime"))
                (scheduled (time_skill h)))
             (set_display_active ""
                (set_effects
                   (effects (time_skill h) ++
                    [Sleep 0; MouthReset; ActivateMouthEvents; RemoveActive])
                   (time_skill h)))) h)).
Proof.
  intros Hidle. pose proof (display_when_idle_mark_i _ Hidle) as Hp.
  unfold handle_wake_word_detected, _clear_mark_i_display. hrun.
  rewrite Hp, Hidle. hrun.
  change (platform_is MARK_I _) with (platform_is MARK_I (time_skill h)).
  rewrite Hp. hrun. by rewrite <- !app_assoc.
Qed.

Lemma handle_speak_run h :
  display_when_idle (time_skill h) = true ->
  handle_speak h =
    (Ok (),
     set_repeating (repeating h ++ [idle_event])
       (set_time_skill
          (set_effects (effects (time_skill h) ++ [Sleep 5]) (time_skill h))
          (set_host_calls (host_calls h ++ [WaitWhileSpeaking]) h))).
Proof.
  intros Hidle. pose proof (display_when_idle_mark_i _ Hidle) as Hp.
  unfold handle_speak. unfold hbind at 1. unfold hgets at 1.
  unfold hbind at 1. unfold hgets at 1. rewrite Hp, Hidle.
  cbv beta iota. unfold andb.
  unfold hbind at 1. unfold host_call at 1. unfold hmodify at 1.
  cbv beta iota.
  unfold hbind at 1. unfold on_skill at 1. unfold emit, modify.
  cbv beta iota zeta.
  rewrite check_idle_run.
  match goal with |- context [display_when_idle ?t] =>
    change (display_when_idle t) with (display_when_idle (time_skill h))
  end.
  by rewrite Hidle.
Qed.

End WakeWord.

(** X14: on a Mark I with the idle display on, the wake word clears the
    faceplate (no sleep, mouth reset, mouth events on, faceplate
    released) and cancels "IdleTime", so that no event of that name is
    pending; the end of speech then waits for the speech to finish,
    sleeps five seconds and asks for the event again, so that exactly one
    "IdleTime" event is pending afterwards.  Neither raises. *)
Theorem wake_word_then_speak_restores_idle_event (W : World) (h : Host) :
  display_when_idle (time_skill h) = true ->
  let '(outcome1, h1) := handle_wake_word_detected h in
  let '(outcome2, h2) := handle_speak h1 in
  (outcome1 = Ok () /\
   effects (time_skill h1) =
     effects (time_skill h) ++
     [Sleep 0; MouthReset; ActivateMouthEvents; RemoveActive] /\
   display_active (time_skill h1) = "" /\
   repeating_named "IdleTime" h1 = [] /\
   pending "IdleTime" (time_skill h1) = []) /\
  (outcome2 = Ok () /\
   host_calls h2 = host_calls h ++ [WaitWhileSpeaking] /\
   effects (time_skill h2) = effects (time_skill h1) ++ [Sleep 5] /\
   repeating_named "IdleTime" h2 =
     [mk_repeating "IdleTime" CbDisplayIdle (now None) TEN_SECONDS]).
Proof.
  intros Hidle. rewrite (handle_wake_word_detected_run h Hidle).
  set (h1 := set_repeating _ _).
  assert (Hidle1 : display_when_idle (time_skill h1) = true) by exact Hidle.
  rewrite (handle_speak_run h1 Hidle1). split.
  - split; [done|]. split; [done|]. split; [done|]. split.
    + apply repeating_named_cancelled.
    + unfold pending. simpl. by rewrite pending_cancelled.
  - split; [done|]. split; [done|]. split; [done|].
    unfold repeating_named. simpl. rewrite List.filter_app.
    by rewrite repeating_named_cancelled.
Qed.

Lemma wake_word_then_speak_restores_idle_event_witness :
  let W := English.world None in
  let h :=
    mk_host (English.skill MARK_I false true) "mycroft-date-time" "en-us"
      [] [] [@idle_event W; @idle_event W] [] in
  let '(outcome1, h1) := handle_wake_word_detected h in
  let '(outcome2, h2) := @handle_speak W h1 in
  (outcome1 = Ok () /\
   effects (time_skill h1) =
     effects (time_skill h) ++
     [Sleep 0; MouthReset; ActivateMouthEvents; RemoveActive] /\
   display_active (time_skill h1) = "" /\
   repeating_named "IdleTime" h1 = [] /\
   pending "IdleTime" (time_skill h1) = []) /\
  (outcome2 = Ok () /\
   host_calls h2 = host_calls h ++ [WaitWhileSpeaking] /\
   effects (time_skill h2) = effects (time_skill h1) ++ [Sleep 5] /\
   repeating_named "IdleTime" h2 =
     [mk_repeating "IdleTime" CbDisplayIdle (@now W None) TEN_SECONDS]).
Proof.
  intros W h.
  apply (wake_word_then_speak_restores_idle_event W h). reflexivity.
Defined.

Lemma handle_current_time_key_of_task {W : World} (s : TimeSkill) :
  _current_time_cache_key (snd (_cache_current_time_tts s)) =
  _current_time_cache_key s.
Proof.
  assert (H : preserves _current_time_cache_key _cache_current_time_tts).
  { assert (forall e, preserves _current_time_cache_key (emit e))
      by (intros e; by apply preserves_modify).
    unfold _cache_current_time_tts, cache_dialog, cancel_scheduled_event,
      schedule_event.
    auto 30 with frame. }
  apply H.
Qed.

(** [initialize], statement by statement. *)
Lemma initialize_run (W : World) (h : Host) :
  let '(outcome, h') := initialize h in
  outcome = Ok () /\
  host_calls h' = host_calls h ++ [DateTimeFormatCache (lang h)] /\
  events h' =
    events h ++
    [("recognizer_loop:wakeword", CbHandleWakeWordDetected);
     ("speak", CbHandleSpeak);
     ("mycroft.speech.recognition.unknown", CbHandleSpeechRecognitionUnknown);
     ("mycroft.started", CbCacheCurrentTimeTts)] /\
  repeating h' =
    repeating h ++
    (if display_when_idle (time_skill h)
     then [mk_repeating "IdleTime" CbDisplayIdle (now None) TEN_SECONDS]
     else []) /\
  disabled_intents h' =
    disabled_intents h ++
    (if bool_decide (platform (time_skill h) = Some MARK_I)
     then [] else ["mark-one-idle"]) /\
  time_skill h' =
    set_current_time_cache_key (skill_id h ++ ".current-time") (time_skill h).
Proof.
  unfold initialize, _define_event_handlers.
  unfold hbind at 1. unfold hgets at 1.
  unfold hbind at 1. unfold host_call at 1. unfold hmodify at 1.
  cbv beta iota.
  set (h0 := set_host_calls _ h).
  unfold hbind at 1.
  replace ((add_event "recognizer_loop:wakeword" CbHandleWakeWordDetected ;;
            add_event "speak" CbHandleSpeak ;;
            add_event "mycroft.speech.recognition.unknown"
              CbHandleSpeechRecognitionUnknown)%host h0)
    with (Ok (),
          set_events
            (events h ++
             [("recognizer_loop:wakeword", CbHandleWakeWordDetected);
              ("speak", CbHandleSpeak);
              ("mycroft.speech.recognition.unknown",
               CbHandleSpeechRecognitionUnknown)]) h0)
    by (hrun; by rewrite <- !app_assoc).
  cbv beta iota. set (h1 := set_events _ h0).
  unfold hbind at 1. rewrite check_idle_run.
  change (display_when_idle (time_skill h1))
    with (display_when_idle (time_skill h)).
  cbv beta iota.
  set (h2 := if display_when_idle (time_skill h) then _ else h1).
  assert (Hskill : time_skill h2 = time_skill h)
    by (unfold h2; by destruct (display_when_idle (time_skill h))).
  assert (Hrep : repeating h2 =
            repeating h ++
            (if display_when_idle (time_skill h) then [idle_event] else []))
    by (unfold h2; destruct (display_when_idle (time_skill h)); simpl;
        [done|by rewrite app_nil_r]).
  assert (Hev : events h2 = events h1)
    by (unfold h2; by destruct (display_when_idle (time_skill h))).
  assert (Hcalls : host_calls h2 = host_calls h0)
    by (unfold h2; by destruct (display_when_idle (time_skill h))).
  assert (Hdis : disabled_intents h2 = disabled_intents h)
    by (unfold h2; by destruct (display_when_idle (time_skill h))).
  assert (Hid : skill_id h2 = skill_id h)
    by (unfold h2; by destruct (display_when_idle (time_skill h))).
  clearbody h2. hrun. rewrite Hskill. unfold platform_is.
  destruct (bool_decide (platform (time_skill h) = Some MARK_I)); hrun;
    rewrite ?Hskill, ?Hrep, ?Hev, ?Hcalls, ?Hdis, ?Hid; simpl;
    rewrite <- ?app_assoc, ?app_nil_r; done.
Qed.

(** X15: [initialize] never raises and leaves the pending events and
    the calls on the enclosure alone.  It caches the date format of the
    skill's language, registers the callbacks for the wake word, the end
    of speech and unrecognised speech, asks for the "IdleTime" event
    exactly when the idle display is on, switches the "mark-one-idle"
    intent off exactly when the platform is not a Mark I, sets the cache
    key to the skill id followed by ".current-time", and registers the
    pre-cache task for "mycroft.started": the task is not run or
    scheduled by [initialize] itself. *)
Theorem initialize_registers_callbacks (W : World) (h : Host) :
  let '(outcome, h') := initialize h in
  outcome = Ok () /\
  host_calls h' = host_calls h ++ [DateTimeFormatCache (lang h)] /\
  events h' =
    events h ++
    [("recognizer_loop:wakeword", CbHandleWakeWordDetected);
     ("speak", CbHandleSpeak);
     ("mycroft.speech.recognition.unknown", CbHandleSpeechRecognitionUnknown);
     ("mycroft.started", CbCacheCurrentTimeTts)] /\
  repeating h' =
    repeating h ++
    (if display_when_idle (time_skill h)
     then [mk_repeating "IdleTime" CbDisplayIdle (now None) TEN_SECONDS]
     else []) /\
  disabled_intents h' =
    disabled_intents h ++
    (if bool_decide (platform (time_skill h) = Some MARK_I)
     then [] else ["mark-one-idle"]) /\
  time_skill h' =
    set_current_time_cache_key (skill_id h ++ ".current-time") (time_skill h).
Proof. apply initialize_run. Qed.

(** X17: the key under which the pre-cache task stores the synthesized
    answer is the one [initialize] assigns: when the "mycroft.started"
    event, for which [initialize] registered the task, fires after
    [initialize], the task returns with the no-location current-time
    dialog cached under the skill id followed by ".current-time", one
    "CacheTTS" run pending, and that key still on the skill for the
    requests to come.  The clock is read as a [datetime] before the last
    minute the type can hold. *)
Theorem started_event_caches_under_skill_key (W : World) (h : Host) :
  valid datetime_now = true -> Calendar.last_minute datetime_now = false ->
  let key := (skill_id h ++ ".current-time")%string in
  let h1 := snd (initialize h) in
  In ("mycroft.started", CbCacheCurrentTimeTts) (events h1) /\
  let '(outcome, h2) := run_callback CbCacheCurrentTimeTts h1 in
  outcome = Ok () /\
  effects (time_skill h2) =
    effects (time_skill h) ++
    CacheDialog (Some "current-time")
      (Some {[ "time" := Some (nice_time (now None)) ]}) key
    :: match cache_dialog_error with
       | Some e => [LogException "Error while caching TTS" e]
       | None => []
       end /\
  (exists next, pending "CacheTTS" (time_skill h2) = [next]) /\
  _current_time_cache_key (time_skill h2) = key.
Proof.
  intros Hv Hlast key h1. subst key h1.
  destruct (next_minute_of_spec datetime_now Hv Hlast)
    as (next & Hnext & _).
  pose proof (initialize_run W h) as Hinit.
  destruct (initialize h) as [outcome1 h1].
  destruct Hinit as (_ & _ & Hev & _ & _ & Hskill). simpl.
  split; [rewrite Hev; apply in_or_app; right; simpl; tauto|].
  unfold run_callback, on_skill.
  pose proof (cache_current_time_tts_run next (time_skill h1) Hnext) as Hrun.
  pose proof (rearm_survives_failure build_and_cache next (time_skill h1)
                Hnext build_and_cache_schedule) as Hgen.
  rewrite <- cache_task_shape in Hgen.
  pose proof (handle_current_time_key_of_task (time_skill h1)) as Hkey.
  destruct (_cache_current_time_tts (time_skill h1)) as [outcome s2].
  destruct Hrun as [-> Heff]. destruct Hgen as [_ Hp]. simpl in *.
  rewrite Hskill in Heff, Hkey. simpl in Heff, Hkey.
  split; [done|]. split; [exact Heff|]. split; [by exists next|exact Hkey].
Qed.

Lemma started_event_caches_under_skill_key_witness :
  let W := English.world None in
  let h :=
    @create_skill (English.config MARK_II) ∅ true "" "mycroft-date-time"
      "en-us" in
  let key := "mycroft-date-time.current-time" in
  let h1 := snd (@initialize W h) in
  In ("mycroft.started", CbCacheCurrentTimeTts) (events h1) /\
  let '(outcome, h2) := @run_callback W CbCacheCurrentTimeTts h1 in
  outcome = Ok () /\
  effects (time_skill h2) =
    effects (time_skill h) ++
    CacheDialog (Some "current-time")
      (Some {[ "time" := Some (@nice_time W (@now W None)) ]}) key
    :: match @cache_dialog_error W with
       | Some e => [LogException "Error while caching TTS" e]
       | None => []
       end /\
  (exists next, pending "CacheTTS" (time_skill h2) = [next]) /\
  _current_time_cache_key (time_skill h2) = key.
Proof.
  intros W h.
  apply (started_event_caches_under_skill_key W h); reflexivity.
Defined.

(** X16: a freshly constructed skill has drawn nothing yet, so on a
    Mark I with the idle display on its first idle tick, when it finds
    the faceplate idle, draws the formatted time, once, and stores it; a
    second tick with the same formatted time then asks for the owner of
    the faceplate and does nothing else. *)
Theorem fresh_skill_draws_on_first_idle_tick (W : World)
    (config : Config) (stored : gmap string bool) (connected : bool)
    (active id language : string) :
  let h := create_skill config stored connected active id language in
  let display_time := get_display_time (Some (now None)) config in
  display_when_idle (time_skill h) = true ->
  truthy active = false ->
  let '(outcome, s1) := display_idle (time_skill h) in
  outcome = Ok () /\
  displayed_time s1 = Some display_time /\
  (exists alarm, drawings s1 = [(display_time, alarm)]) /\
  display_idle s1 = (Ok (), set_effects (effects s1 ++ [GetActive]) s1).
Proof.
  intros h display_time Hidle Hactive. subst h display_time. simpl in *.
  set (s0 := mk_skill config stored None "" ∅ connected active [] []) in *.
  unfold display_idle, _display_mark_i, _is_alarm_set. run.
  change (display_when_idle _) with (display_when_idle s0) at 1.
  rewrite Hidle, Hactive. run.
  repeat match goal with |- context [display_when_idle ?t] =>
    lazymatch t with
    | s0 => fail
    | _ => change (display_when_idle t) with (display_when_idle s0)
    end
  end.
  rewrite Hidle. run.
  split; [done|]. split; [done|]. split; [by eexists|].
  repeat match goal with |- context [display_when_idle ?t] =>
    lazymatch t with
    | s0 => fail
    | _ => change (display_when_idle t) with (display_when_idle s0)
    end
  end.
  rewrite Hidle. simpl. by rewrite bool_decide_eq_true_2.
Qed.

Lemma fresh_skill_draws_on_first_idle_tick_witness :
  let W := English.world None in
  let h :=
    @create_skill (English.config MARK_I) {[ "show_time" := true ]} false
      "" "mycroft-date-time" "en-us" in
  let '(outcome, s1) := @display_idle W (time_skill h) in
  outcome = Ok () /\
  displayed_time s1 = Some "12:34" /\
  (exists alarm, drawings s1 = [("12:34", alarm)]) /\
  @display_idle W s1 = (Ok (), set_effects (effects s1 ++ [GetActive]) s1).
Proof.
  intros W h.
  apply (fresh_skill_draws_on_first_idle_tick W (English.config MARK_I)
           {[ "show_time" := true ]} false "" "mycroft-date-time" "en-us").
  - by vm_compute.
  - reflexivity.
Defined.

End LifecycleFacts.
